(** * The file-upload client of notionapi (file_upload.go)

    A shallow embedding of [FileUploadClient.Create], [FileUploadClient.Send],
    [handleFileUploadResponse] and [FileUploadClient.SendFileByPath], with the
    parts of Go's standard library they run on ([fmt.Errorf], [strconv.Itoa],
    [io.Copy], [mime/multipart.Writer], [encoding/json], [os]) modelled as far
    as the client observes them.

    Go strings and byte buffers are [string]s (sequences of 8-bit characters).
    The client's effects, calls of the transport and lines sent to the
    standard logger, are threaded through a small state monad.

    What the model leaves out: panics (a nil reader or client, a buffer that
    outgrows the memory, a failing source of random bytes) and readers that
    never end.  [int] has 64 bits and package [os] is the one of Unix.  The
    transport, the constant [ContentTypeFormData] and the parser of package
    [time] are parameters of the model. *)

From Stdlib Require Import ZArith NArith List String Ascii Bool Lia.
From Stdlib Require Import DecimalString DecimalZ DecimalPos.
Import ListNotations.

Local Open Scope string_scope.
Local Open Scope Z_scope.

(** ** Characters and strings *)

Definition CR : ascii := ascii_of_nat 13.
Definition LF : ascii := ascii_of_nat 10.
Definition dquote : ascii := ascii_of_nat 34.
Definition backslash : ascii := ascii_of_nat 92.
Definition slash : ascii := ascii_of_nat 47.

Definition CRLF : string := String CR (String LF EmptyString).
Definition str (c : ascii) : string := String c EmptyString.

(** ** Errors

    A Go [error] is observed through its message ([Error()]) and through the
    error it wraps, if any ([errors.Unwrap]).  [New] stands for an error that
    wraps nothing, [Wrapped] for one made by [fmt.Errorf] with a [%w] verb. *)

Inductive error : Type :=
| New (msg : string)
| Wrapped (msg : string) (cause : error).

Definition Error (e : error) : string :=
  match e with New m => m | Wrapped m _ => m end.


(** [fmt.Errorf(prefix + "%w", err)] *)
Definition Errorf_w (prefix : string) (err : error) : error :=
  Wrapped (prefix ++ Error err) err.

(** [strconv.Itoa], also the [%d] verb of [fmt]: the decimal numeral of an
    integer, with a leading minus sign when it is negative. *)
Definition Itoa (i : Z) : string := NilZero.string_of_int (Z.to_int i).

(** [fmt.Errorf(prefix + "%d", n)] *)
Definition Errorf_d (prefix : string) (n : Z) : error := New (prefix ++ Itoa n).

Definition Result (A : Type) : Type := (A + error)%type.

(** ** [io.Reader]

    A reader is the sequence of results of its [Read] calls up to the first
    one that reports an error: every call hands over some bytes (possibly
    none), and the last one reports [io.EOF] ([None]) or another error. *)

Inductive Reader : Type :=
| ReadLast (data : string) (err : option error)
| ReadMore (data : string) (rest : Reader).

(** All the bytes the reader hands over. *)
Fixpoint reader_bytes (r : Reader) : string :=
  match r with
  | ReadLast d _ => d
  | ReadMore d rest => d ++ reader_bytes rest
  end.

(** The error that ends the reader, [None] for [io.EOF]. *)
Fixpoint reader_error (r : Reader) : option error :=
  match r with
  | ReadLast _ e => e
  | ReadMore _ rest => reader_error rest
  end.

(** ** [mime/multipart.Writer] over a [bytes.Buffer]

    [w_buf] is the buffer the writer appends to.  A part handed out by
    [CreatePart] is named by its number; the writer's [lastpart] is the only
    part still open, every earlier one has been closed. *)

Module multipart.

Record part : Type := mkPart {
  part_id : nat;
  closed : bool;
  we : option error
}.

Record Writer : Type := mkWriter {
  w_buf : string;
  boundary : string;
  lastpart : option part;
  next_id : nat
}.

Definition hex_digit (n : N) : ascii :=
  if (n <? 10)%N then ascii_of_N (48 + n) else ascii_of_N (87 + n).

Definition hex_byte (c : ascii) : string :=
  let n := N_of_ascii c in
  String (hex_digit (n / 16)) (String (hex_digit (n mod 16)) EmptyString).

(** [fmt.Sprintf("%x", buf)] *)
Fixpoint hex (buf : string) : string :=
  match buf with
  | EmptyString => EmptyString
  | String c rest => hex_byte c ++ hex rest
  end.

(** [randomBoundary]: the hexadecimal numeral of the 30 bytes read from
    [crypto/rand]; [entropy] is what was read. *)
Definition randomBoundary (entropy : string) : string := hex entropy.

(** [NewWriter(w)], [w] a buffer holding [buf]. *)
Definition NewWriter (buf : string) (entropy : string) : Writer :=
  mkWriter buf (randomBoundary entropy) None O.

(** [Write] of [bytes.Buffer] never fails. *)
Definition buffer_Write (w : Writer) (d : string) : Writer :=
  mkWriter (w_buf w ++ d) (boundary w) (lastpart w) (next_id w).

Definition set_lastpart (w : Writer) (p : option part) : Writer :=
  mkWriter (w_buf w) (boundary w) p (next_id w).

(** [close] of a part: marks the part closed and reports its write error. *)
Definition part_close (p : part) : part * option error :=
  (mkPart (part_id p) true (we p), we p).

(** [textproto.MIMEHeader] with one value per key, and the keys in the order
    [slices.Sort] gives them. *)
Definition MIMEHeader : Type := list (string * string).

Fixpoint insert_key (kv : string * string) (h : MIMEHeader) : MIMEHeader :=
  match h with
  | [] => [kv]
  | kv' :: rest =>
      if String.leb (fst kv) (fst kv') then kv :: h else kv' :: insert_key kv rest
  end.

Definition sorted_header (h : MIMEHeader) : MIMEHeader :=
  fold_right insert_key [] h.

Fixpoint header_lines (h : MIMEHeader) : string :=
  match h with
  | [] => EmptyString
  | (k, v) :: rest => k ++ ": " ++ v ++ CRLF ++ header_lines rest
  end.

(** [CreatePart]: closes the part before, writes the delimiter line (after a
    line break unless this is the first part), the header lines and an empty
    line, and hands out the new part. *)
Definition CreatePart (w : Writer) (header : MIMEHeader) : Writer * Result nat :=
  let closing :=
    match lastpart w with
    | Some p => let '(p', err) := part_close p in (set_lastpart w (Some p'), err)
    | None => (w, None)
    end in
  match closing with
  | (w1, Some err) => (w1, inr err)
  | (w1, None) =>
      let b :=
        (match lastpart w1 with
         | Some _ => CRLF ++ "--" ++ boundary w1 ++ CRLF
         | None => "--" ++ boundary w1 ++ CRLF
         end) ++ header_lines (sorted_header header) ++ CRLF in
      let w2 := buffer_Write w1 b in
      let p := mkPart (next_id w2) false None in
      (mkWriter (w_buf w2) (boundary w2) (Some p) (S (next_id w2)), inl (part_id p))
  end.

(** [escapeQuotes]: a backslash before every backslash and double quote.
    (Later releases of Go also write %0D and %0A for a carriage return and
    a line feed; the two agree on every name that holds no line break.) *)
Fixpoint escapeQuotes (s : string) : string :=
  match s with
  | EmptyString => EmptyString
  | String c rest =>
      if Ascii.eqb c backslash then String backslash (String backslash (escapeQuotes rest))
      else if Ascii.eqb c dquote then String backslash (String dquote (escapeQuotes rest))
      else String c (escapeQuotes rest)
  end.

Definition file_disposition (fieldname filename : string) : string :=
  "form-data; name=" ++ str dquote ++ escapeQuotes fieldname ++ str dquote ++
  "; filename=" ++ str dquote ++ escapeQuotes filename ++ str dquote.

Definition field_disposition (fieldname : string) : string :=
  "form-data; name=" ++ str dquote ++ escapeQuotes fieldname ++ str dquote.

Definition CreateFormFile (w : Writer) (fieldname filename : string)
  : Writer * Result nat :=
  let h := [("Content-Disposition", file_disposition fieldname filename);
            ("Content-Type", "application/octet-stream")] in
  CreatePart w h.

Definition CreateFormField (w : Writer) (fieldname : string) : Writer * Result nat :=
  CreatePart w [("Content-Disposition", field_disposition fieldname)].

(** [Write] of a part, through the handle [id]: refused once the part is
    closed, that is unless it is the writer's open last part. *)
Definition part_Write (w : Writer) (id : nat) (d : string) : Writer * option error :=
  match lastpart w with
  | Some p =>
      if Nat.eqb (part_id p) id && negb (closed p)
      then (buffer_Write w d, None)
      else (w, Some (New "multipart: can't write to finished part"))
  | None => (w, Some (New "multipart: can't write to finished part"))
  end.

Definition WriteField (w : Writer) (fieldname value : string) : Writer * option error :=
  match CreateFormField w fieldname with
  | (w1, inr err) => (w1, Some err)
  | (w1, inl p) => part_Write w1 p value
  end.

(** [Close]: closes the last part and writes the closing delimiter. *)
Definition Close (w : Writer) : Writer * option error :=
  let closing :=
    match lastpart w with
    | Some p =>
        let '(p', err) := part_close p in
        match err with
        | Some e => (set_lastpart w (Some p'), Some e)
        | None => (set_lastpart w None, None)
        end
    | None => (w, None)
    end in
  match closing with
  | (w1, Some err) => (w1, Some err)
  | (w1, None) => (buffer_Write w1 (CRLF ++ "--" ++ boundary w1 ++ "--" ++ CRLF), None)
  end.

(** [FormDataContentType]: the content type that declares the writer's
    boundary, quoted when it holds a character special to RFC 2045. *)
Definition tspecials : string := "()<>@,;:" ++ str backslash ++ str dquote ++ "/[]?= ".

Fixpoint contains_char (s : string) (c : ascii) : bool :=
  match s with
  | EmptyString => false
  | String x rest => Ascii.eqb x c || contains_char rest c
  end.

Fixpoint ContainsAny (s chars : string) : bool :=
  match s with
  | EmptyString => false
  | String c rest => contains_char chars c || ContainsAny rest chars
  end.

Definition FormDataContentType (w : Writer) : string :=
  let b := boundary w in
  let b := if ContainsAny b tspecials then str dquote ++ b ++ str dquote else b in
  "multipart/form-data; boundary=" ++ b.

End multipart.

(** [io.Copy(dst, src)] into the part [id] of a multipart writer: every
    [Read] result is written before its error is looked at; a failed write
    or a read error other than [io.EOF] ends the copy with that error. *)
Fixpoint io_Copy (w : multipart.Writer) (id : nat) (src : Reader)
  : multipart.Writer * option error :=
  match src with
  | ReadLast d er =>
      match (if String.eqb d EmptyString then (w, None) else multipart.part_Write w id d) with
      | (w1, Some ew) => (w1, Some ew)
      | (w1, None) => (w1, er)
      end
  | ReadMore d rest =>
      match (if String.eqb d EmptyString then (w, None) else multipart.part_Write w id d) with
      | (w1, Some ew) => (w1, Some ew)
      | (w1, None) => io_Copy w1 id rest
      end
  end.

(** ** The data model of file_upload.go *)

Definition FileUploadID : Type := string.
Definition FileUploadMode : Type := string.
Definition FileUploadStatus : Type := string.
(** [ObjectType] is declared elsewhere in the package; file_upload.go takes
    it to be a string type. *)
Definition ObjectType : Type := string.

Definition FileUploadModeSinglePart : FileUploadMode := "single_part".
Definition FileUploadModeMultiPart : FileUploadMode := "multi_part".
Definition FileUploadModeExternalURL : FileUploadMode := "external_url".

Definition FileUploadStatusUploaded : FileUploadStatus := "uploaded".
Definition FileUploadStatusExpired : FileUploadStatus := "expired".
Definition FileUploadStatusFailed : FileUploadStatus := "failed".

(** A pointer field is an [option]: [None] is the nil pointer. *)
Record FileUploadCreateRequest : Type := mkCreateRequest {
  Mode : FileUploadMode;
  req_Filename : string;
  req_ContentType : string;
  NumberOfParts : option Z;
  ExternalURL : string
}.

(** [time.Time]: an instant, as seconds and nanoseconds since the zero time
    and the offset of its zone. *)
Record time_Time : Type := mkTime { sec : Z; nsec : Z; zone_offset : Z }.
Definition zero_Time : time_Time := mkTime 0 0 0.

Record FileUpload : Type := mkFileUpload {
  Object : ObjectType;
  ID : FileUploadID;
  CreatedTime : time_Time;
  LastEditedTime : time_Time;
  ExpiryTime : option time_Time;
  Status : FileUploadStatus;
  Filename : string;
  ContentType : string;
  ContentLength : option Z;
  UploadURL : string;
  CompleteURL : string;
  FileImportResult : string
}.

(** [var response FileUpload] *)
Definition zero_FileUpload : FileUpload :=
  mkFileUpload EmptyString EmptyString zero_Time zero_Time None EmptyString
               EmptyString EmptyString None EmptyString EmptyString EmptyString.

(** ** [encoding/json]: decoding a JSON value into a [FileUpload]

    A JSON text is taken as the value the decoder's scanner reads from it.
    A string is given by its characters, a number by its literal.  String
    literals are taken to be written without escape sequences, so that the
    text [time.Time] is handed, which it does not unquote, is the string. *)

Module json.

#[local] Unset Elimination Schemes.
Inductive Value : Type :=
| Null
| Bool (b : bool)
| Number (literal : string)
| Str (s : string)
| Array (elements : list Value)
| Obj (members : list (string * Value)).
#[local] Set Elimination Schemes.

(** The word an [UnmarshalTypeError] names a JSON value by. *)
Definition kind_name (v : Value) : string :=
  match v with
  | Null => "null"
  | Bool _ => "bool"
  | Number _ => "number"
  | Str _ => "string"
  | Array _ => "array"
  | Obj _ => "object"
  end.

(** The fields of [FileUpload], in the order of the struct. *)
Inductive field : Type :=
| f_object | f_id | f_created_time | f_last_edited_time | f_expiry_time
| f_status | f_filename | f_content_type | f_content_length | f_upload_url
| f_complete_url | f_file_import_result.

Definition fields : list field :=
  [f_object; f_id; f_created_time; f_last_edited_time; f_expiry_time; f_status;
   f_filename; f_content_type; f_content_length; f_upload_url; f_complete_url;
   f_file_import_result].

(** The name in the field's [json] tag. *)
Definition field_name (f : field) : string :=
  match f with
  | f_object => "object"
  | f_id => "id"
  | f_created_time => "created_time"
  | f_last_edited_time => "last_edited_time"
  | f_expiry_time => "expiry_time"
  | f_status => "status"
  | f_filename => "filename"
  | f_content_type => "content_type"
  | f_content_length => "content_length"
  | f_upload_url => "upload_url"
  | f_complete_url => "complete_url"
  | f_file_import_result => "file_import_result"
  end.

(** The Go type of the field, as [reflect.Type.String] prints it. *)
Definition field_type (f : field) : string :=
  match f with
  | f_object => "notionapi.ObjectType"
  | f_id => "notionapi.FileUploadID"
  | f_created_time | f_last_edited_time => "time.Time"
  | f_expiry_time => "*time.Time"
  | f_status => "notionapi.FileUploadStatus"
  | f_content_length => "int"
  | _ => "string"
  end.

(** [foldName]: the key with every rune replaced by the least rune of its
    case-folding orbit.  Lower-case ASCII letters become upper case; the only
    other runes folded into ASCII are U+017F (long s, bytes C5 BF) and U+212A
    (Kelvin sign, bytes E2 84 AA).  The remaining runes stay outside ASCII and
    are left as they are: no field name holds one. *)
Definition upper (c : ascii) : ascii :=
  let n := N_of_ascii c in
  if ((97 <=? n) && (n <=? 122))%N then ascii_of_N (n - 32) else c.

Fixpoint foldName (s : string) : string :=
  match s with
  | EmptyString => EmptyString
  | String c rest =>
      let n := N_of_ascii c in
      match rest with
      | String c1 rest1 =>
          if ((n =? 197) && (N_of_ascii c1 =? 191))%N then String "S" (foldName rest1)
          else
            match rest1 with
            | String c2 rest2 =>
                if ((n =? 226) && (N_of_ascii c1 =? 132) && (N_of_ascii c2 =? 170))%N
                then String "K" (foldName rest2)
                else String (upper c) (foldName rest)
            | EmptyString => String (upper c) (foldName rest)
            end
      | EmptyString => String (upper c) EmptyString
      end
  end.

(** The field a member's key names: the one whose name is the key, or else
    the one whose name equals it under case folding. *)
Definition find_field (key : string) : option field :=
  match find (fun f => String.eqb (field_name f) key) fields with
  | Some f => Some f
  | None => find (fun f => String.eqb (foldName (field_name f)) (foldName key)) fields
  end.

(** [strconv.ParseInt(s, 10, 64)] *)
Fixpoint digits_value (s : string) (acc : Z) : option Z :=
  match s with
  | EmptyString => Some acc
  | String c rest =>
      let n := Z.of_N (N_of_ascii c) in
      if (48 <=? n) && (n <=? 57) then digits_value rest (10 * acc + (n - 48)) else None
  end.

Definition ParseInt (s : string) : option Z :=
  let '(neg, ds) :=
    match s with
    | String c rest =>
        if Ascii.eqb c "-" then (true, rest)
        else if Ascii.eqb c "+" then (false, rest) else (false, s)
    | EmptyString => (false, s)
    end in
  match ds with
  | EmptyString => None
  | _ =>
      match digits_value ds 0 with
      | Some v =>
          let n := if neg then - v else v in
          if (- 2 ^ 63 <=? n) && (n <? 2 ^ 63) then Some n else None
      | None => None
      end
  end.

Definition UnmarshalTypeError (value : string) (f : field) : error :=
  New ("json: cannot unmarshal " ++ value ++ " into Go struct field FileUpload." ++
       field_name f ++ " of type " ++ field_type f).

Definition UnmarshalTypeError_top (value : string) : error :=
  New ("json: cannot unmarshal " ++ value ++ " into Go value of type notionapi.FileUpload").


Section Decode.

(** [parseStrictRFC3339] of package [time], which [time.Time]'s
    [UnmarshalJSON] hands the text of a string literal. *)
Variable parseStrictRFC3339 : string -> Result time_Time.

(** [Time.UnmarshalJSON] on the text of a JSON value: [None] when the value
    is [null] and the receiver stays as it is. *)
Definition Time_UnmarshalJSON (v : Value) : Result (option time_Time) :=
  match v with
  | Null => inl None
  | Str s =>
      match parseStrictRFC3339 s with
      | inl t => inl (Some t)
      | inr e => inr e
      end
  | _ => inr (New "Time.UnmarshalJSON: input is not a JSON string")
  end.

(** What storing one value in one field does: the struct after it, and the
    error if any.  An error of an [Unmarshaler] ends the decoding at once
    ([Abort]); a value of the wrong kind is recorded ([Saved]) and decoding
    goes on. *)
Inductive outcome : Type :=
| Stored (r : FileUpload)
| Saved (r : FileUpload) (e : error)
| Abort (e : error).

Definition store_string (set : string -> FileUpload) (r : FileUpload) (f : field)
    (v : Value) : outcome :=
  match v with
  | Str s => Stored (set s)
  | Null => Stored r
  | _ => Saved r (UnmarshalTypeError (kind_name v) f)
  end.

Definition store_time (set : time_Time -> FileUpload) (r : FileUpload) (v : Value)
  : outcome :=
  match Time_UnmarshalJSON v with
  | inl (Some t) => Stored (set t)
  | inl None => Stored r
  | inr e => Abort e
  end.

Definition set_Object (r : FileUpload) (x : ObjectType) : FileUpload :=
  mkFileUpload x (ID r) (CreatedTime r) (LastEditedTime r) (ExpiryTime r) (Status r)
    (Filename r) (ContentType r) (ContentLength r) (UploadURL r) (CompleteURL r)
    (FileImportResult r).
Definition set_ID (r : FileUpload) (x : FileUploadID) : FileUpload :=
  mkFileUpload (Object r) x (CreatedTime r) (LastEditedTime r) (ExpiryTime r) (Status r)
    (Filename r) (ContentType r) (ContentLength r) (UploadURL r) (CompleteURL r)
    (FileImportResult r).
Definition set_CreatedTime (r : FileUpload) (x : time_Time) : FileUpload :=
  mkFileUpload (Object r) (ID r) x (LastEditedTime r) (ExpiryTime r) (Status r)
    (Filename r) (ContentType r) (ContentLength r) (UploadURL r) (CompleteURL r)
    (FileImportResult r).
Definition set_LastEditedTime (r : FileUpload) (x : time_Time) : FileUpload :=
  mkFileUpload (Object r) (ID r) (CreatedTime r) x (ExpiryTime r) (Status r)
    (Filename r) (ContentType r) (ContentLength r) (UploadURL r) (CompleteURL r)
    (FileImportResult r).
Definition set_ExpiryTime (r : FileUpload) (x : option time_Time) : FileUpload :=
  mkFileUpload (Object r) (ID r) (CreatedTime r) (LastEditedTime r) x (Status r)
    (Filename r) (ContentType r) (ContentLength r) (UploadURL r) (CompleteURL r)
    (FileImportResult r).
Definition set_Status (r : FileUpload) (x : FileUploadStatus) : FileUpload :=
  mkFileUpload (Object r) (ID r) (CreatedTime r) (LastEditedTime r) (ExpiryTime r) x
    (Filename r) (ContentType r) (ContentLength r) (UploadURL r) (CompleteURL r)
    (FileImportResult r).
Definition set_Filename (r : FileUpload) (x : string) : FileUpload :=
  mkFileUpload (Object r) (ID r) (CreatedTime r) (LastEditedTime r) (ExpiryTime r)
    (Status r) x (ContentType r) (ContentLength r) (UploadURL r) (CompleteURL r)
    (FileImportResult r).
Definition set_ContentType (r : FileUpload) (x : string) : FileUpload :=
  mkFileUpload (Object r) (ID r) (CreatedTime r) (LastEditedTime r) (ExpiryTime r)
    (Status r) (Filename r) x (ContentLength r) (UploadURL r) (CompleteURL r)
    (FileImportResult r).
Definition set_ContentLength (r : FileUpload) (x : option Z) : FileUpload :=
  mkFileUpload (Object r) (ID r) (CreatedTime r) (LastEditedTime r) (ExpiryTime r)
    (Status r) (Filename r) (ContentType r) x (UploadURL r) (CompleteURL r)
    (FileImportResult r).
Definition set_UploadURL (r : FileUpload) (x : string) : FileUpload :=
  mkFileUpload (Object r) (ID r) (CreatedTime r) (LastEditedTime r) (ExpiryTime r)
    (Status r) (Filename r) (ContentType r) (ContentLength r) x (CompleteURL r)
    (FileImportResult r).
Definition set_CompleteURL (r : FileUpload) (x : string) : FileUpload :=
  mkFileUpload (Object r) (ID r) (CreatedTime r) (LastEditedTime r) (ExpiryTime r)
    (Status r) (Filename r) (ContentType r) (ContentLength r) (UploadURL r) x
    (FileImportResult r).
Definition set_FileImportResult (r : FileUpload) (x : string) : FileUpload :=
  mkFileUpload (Object r) (ID r) (CreatedTime r) (LastEditedTime r) (ExpiryTime r)
    (Status r) (Filename r) (ContentType r) (ContentLength r) (UploadURL r)
    (CompleteURL r) x.

(** A value stored through the nil pointer [ContentLength] first makes the
    pointer point to a fresh 0. *)
Definition alloc_ContentLength (r : FileUpload) : FileUpload :=
  match ContentLength r with
  | None => set_ContentLength r (Some 0)
  | Some _ => r
  end.

Definition store (r : FileUpload) (f : field) (v : Value) : outcome :=
  match f with
  | f_object => store_string (set_Object r) r f v
  | f_id => store_string (set_ID r) r f v
  | f_created_time => store_time (set_CreatedTime r) r v
  | f_last_edited_time => store_time (set_LastEditedTime r) r v
  | f_expiry_time =>
      match v with
      | Null => Stored (set_ExpiryTime r None)
      | _ => store_time (fun t => set_ExpiryTime r (Some t)) r v
      end
  | f_status => store_string (set_Status r) r f v
  | f_filename => store_string (set_Filename r) r f v
  | f_content_type => store_string (set_ContentType r) r f v
  | f_content_length =>
      match v with
      | Null => Stored (set_ContentLength r None)
      | Number lit =>
          match ParseInt lit with
          | Some n => Stored (set_ContentLength r (Some n))
          | None => Saved (alloc_ContentLength r) (UnmarshalTypeError ("number " ++ lit) f)
          end
      | _ => Saved (alloc_ContentLength r) (UnmarshalTypeError (kind_name v) f)
      end
  | f_upload_url => store_string (set_UploadURL r) r f v
  | f_complete_url => store_string (set_CompleteURL r) r f v
  | f_file_import_result => store_string (set_FileImportResult r) r f v
  end.

(** The members of an object, in their order; a key that names no field is
    skipped; the first recorded error is the one kept. *)
Fixpoint object (members : list (string * Value)) (r : FileUpload)
    (savedError : option error) : Result (FileUpload * option error) :=
  match members with
  | [] => inl (r, savedError)
  | (key, v) :: rest =>
      match find_field key with
      | None => object rest r savedError
      | Some f =>
          match store r f v with
          | Stored r' => object rest r' savedError
          | Saved r' e =>
              object rest r' (match savedError with Some e0 => Some e0 | None => Some e end)
          | Abort e => inr e
          end
      end
  end.

(** [Unmarshal] of a value into a [*FileUpload] that points to [r]. *)
Definition unmarshal (v : Value) (r : FileUpload) : Result FileUpload :=
  match v with
  | Null => inl r
  | Obj members =>
      match object members r None with
      | inl (r', None) => inl r'
      | inl (_, Some e) => inr e
      | inr e => inr e
      end
  | _ => inr (UnmarshalTypeError_top (kind_name v))
  end.

End Decode.

End json.

(** ** [os]: opening a file and asking for its description (Unix) *)

Module os.

(** What the file system holds under a path: the reads the file answers
    with, and the errors, if any, of describing and of closing it. *)
Record node : Type := mkNode {
  contents : Reader;
  stat_errno : option error;
  close_errno : option error
}.

(** An open file: the name it was opened under, and its node. *)
Record File : Type := mkFile { name : string; file_node : node }.

(** [&PathError{Op: op, Path: path, Err: err}] *)
Definition PathError (op path : string) (err : error) : error :=
  Wrapped (op ++ " " ++ path ++ ": " ++ Error err) err.

(** [basename]: the name without its trailing slashes and without the
    directories that lead to it.  [rev_name] is the name read backwards. *)
Fixpoint strip_slashes (rev_name : list ascii) : list ascii :=
  match rev_name with
  | c :: (_ :: _) as rest => if Ascii.eqb c slash then strip_slashes rest else rev_name
  | _ => rev_name
  end.

Fixpoint up_to_slash (rev_name : list ascii) : list ascii :=
  match rev_name with
  | [] => []
  | c :: rest => if Ascii.eqb c slash then [] else c :: up_to_slash rest
  end.

Definition basename (name : string) : string :=
  match strip_slashes (rev (list_ascii_of_string name)) with
  | [] => EmptyString
  | c :: rest => string_of_list_ascii (rev (c :: up_to_slash rest))
  end.

Section FileSystem.

Variable fs : string -> Result node.

Definition Open (name : string) : Result File :=
  match fs name with
  | inl n => inl (mkFile name n)
  | inr errno => inr (PathError "open" name errno)
  end.

End FileSystem.

(** [Stat] and the [Name] of the [FileInfo] it returns. *)
Definition Stat_Name (f : File) : Result string :=
  match stat_errno (file_node f) with
  | Some errno => inr (PathError "stat" (name f) errno)
  | None => inl (basename (name f))
  end.

Definition Close (f : File) : option error :=
  match close_errno (file_node f) with
  | Some errno => Some (PathError "close" (name f) errno)
  | None => None
  end.

End os.

(** ** The transport: the method [request] of [Client] *)

Module http.
Definition MethodPost : string := "POST".
Definition StatusOK : Z := 200.
End http.

(** The [requestBody] argument: nothing, a create request (by pointer), or a
    buffer of bytes. *)
Inductive RequestBody : Type :=
| NoBody
| CreateRequestBody (r : option FileUploadCreateRequest)
| BufferBody (b : string).

(** A response body, as [encoding/json] reads it: the JSON value it starts
    with, or the error of reading one (an empty or malformed body, a failure
    of the connection). *)
Inductive ResponseBody : Type :=
| JSONBody (v : json.Value)
| Unreadable (e : error).

Record Response : Type := mkResponse {
  StatusCode : Z;
  Body : ResponseBody;
  Body_Close : option error
}.

Section Client.

(** [context.Context], and the state of whatever the transport talks to
    (the network and the remote service). *)
Variable Ctx : Type.
Variable Net : Type.

Record RequestArgs : Type := mkArgs {
  ctx : Ctx;
  method : string;
  urlStr : string;
  queryParams : option (list (string * string));
  requestBody : RequestBody;
  contentTypeOverride : string
}.

(** [apiClient.request], declared elsewhere in the package. *)
Variable request : RequestArgs -> Net -> Result Response * Net.

(** The constant [ContentTypeFormData], declared elsewhere in the package. *)
Variable ContentTypeFormData : string.

Variable parseStrictRFC3339 : string -> Result time_Time.
Variable fs : string -> Result os.node.

(** The state the client acts on: the network, the calls of the transport
    so far, and the lines written with [log.Printf]. *)
Record World : Type := mkWorld {
  net : Net;
  calls : list RequestArgs;
  logged : list string
}.

Definition M (A : Type) : Type := World -> A * World.

Definition ret {A : Type} (a : A) : M A := fun s => (a, s).

Definition bind {A B : Type} (c : M A) (k : A -> M B) : M B :=
  fun s => let '(a, s') := c s in k a s'.

Notation "x <- c ;; k" := (bind c (fun x => k))
  (at level 61, c at next level, right associativity).
Notation "c ;;; k" := (bind c (fun _ => k))
  (at level 61, right associativity).

Definition do_request (args : RequestArgs) : M (Result Response) :=
  fun s =>
    let '(r, n) := request args (net s) in
    (r, mkWorld n (calls s ++ [args]) (logged s)).

Definition log_Printf (line : string) : M unit :=
  fun s => (tt, mkWorld (net s) (calls s) (logged s ++ [line])).

(** The deferred [res.Body.Close()] of [Create] and [Send]. *)
Definition close_body (who : string) (res : Response) : M unit :=
  match Body_Close res with
  | Some errClose =>
      log_Printf (who ++ ": failed to close response body: " ++ Error errClose)
  | None => ret tt
  end.

(** [json.NewDecoder(res.Body).Decode(&response)] *)
Definition Decode (body : ResponseBody) (response : FileUpload) : Result FileUpload :=
  match body with
  | JSONBody v => json.unmarshal parseStrictRFC3339 v response
  | Unreadable e => inr e
  end.

Definition handleFileUploadResponse (res : Response) : Result FileUpload :=
  let response := zero_FileUpload in
  match Decode (Body res) response with
  | inr err => inr (Errorf_w "handleFileUploadResponse: failed to decode json: " err)
  | inl response => inl response
  end.

Definition Create (ctx : Ctx) (requestBody : option FileUploadCreateRequest)
  : M (Result FileUpload) :=
  r <- do_request
         (mkArgs ctx http.MethodPost "file_uploads" None (CreateRequestBody requestBody)
                 EmptyString) ;;
  match r with
  | inr err => ret (inr err)
  | inl res =>
      let result :=
        if negb (StatusCode res =? http.StatusOK)
        then inr (Errorf_d "FileUploadClient.Create: unexpected status code: "
                           (StatusCode res))
        else handleFileUploadResponse res in
      close_body "FileUploadClient.Create" res ;;;
      ret result
  end.

(** The first part of [Send], up to [writer.Close()]: the multipart body it
    builds before any request is made, that is the buffer, or the error
    [Send] returns.  [entropy] stands for the 30 bytes that [NewWriter] reads
    from [crypto/rand] during the call. *)
Definition build_body (file : Reader) (fileName : string) (partNumber : option Z)
    (entropy : string) : Result string :=
  let body := EmptyString in
  let writer := multipart.NewWriter body entropy in
  match multipart.CreateFormFile writer "file" fileName with
  | (_, inr err) => inr (Errorf_w "FileUploadClient.Send: failed to create form file: " err)
  | (writer, inl formFile) =>
      match io_Copy writer formFile file with
      | (_, Some err) =>
          inr (Errorf_w "FileUploadClient.Send: failed to copy file to form: " err)
      | (writer, None) =>
          let field :=
            match partNumber with
            | Some n => multipart.WriteField writer "part_number" (Itoa n)
            | None => (writer, None)
            end in
          match field with
          | (_, Some err) =>
              inr (Errorf_w "FileUploadClient.Send: failed to write part_number field: " err)
          | (writer, None) =>
              match multipart.Close writer with
              | (_, Some err) =>
                  inr (Errorf_w "FileUploadClient.Send: failed to close multipart writer: "
                                err)
              | (writer, None) => inl (multipart.w_buf writer)
              end
          end
      end
  end.

Definition Send (ctx : Ctx) (id : FileUploadID) (file : Reader) (fileName : string)
    (partNumber : option Z) (entropy : string) : M (option error) :=
  match build_body file fileName partNumber entropy with
  | inr err => ret (Some err)
  | inl body =>
      let uploadURL := "file_uploads/" ++ id ++ "/send" in
      r <- do_request
             (mkArgs ctx http.MethodPost uploadURL None (BufferBody body)
                     ContentTypeFormData) ;;
      match r with
      | inr err => ret (Some (Errorf_w "FileUploadClient.Send: request failed: " err))
      | inl res =>
          let result :=
            if negb (StatusCode res =? http.StatusOK)
            then Some (Errorf_d "FileUploadClient.Send: unexpected status code: "
                                (StatusCode res))
            else None in
          close_body "FileUploadClient.Send" res ;;;
          ret result
      end
  end.

(** The deferred [file.Close()] of [SendFileByPath]. *)
Definition close_file (filePath : string) (file : os.File) : M unit :=
  match os.Close file with
  | Some errClose =>
      log_Printf ("SendFileByPath: failed to close file " ++ filePath ++ ": " ++
                  Error errClose)
  | None => ret tt
  end.

Definition SendFileByPath (ctx : Ctx) (id : FileUploadID) (filePath : string)
    (partNumber : option Z) (entropy : string) : M (option error) :=
  match os.Open fs filePath with
  | inr err =>
      ret (Some (Errorf_w ("SendFileByPath: failed to open file " ++ filePath ++ ": ") err))
  | inl file =>
      result <-
        match os.Stat_Name file with
        | inr err =>
            ret (Some (Errorf_w ("SendFileByPath: failed to get file info for " ++
                                 filePath ++ ": ") err))
        | inl fileName =>
            Send ctx id (os.contents (os.file_node file)) fileName partNumber entropy
        end ;;
      close_file filePath file ;;;
      ret result
  end.

End Client.

Arguments mkArgs {Ctx} ctx method urlStr queryParams requestBody contentTypeOverride.
Arguments ctx {Ctx} _.
Arguments method {Ctx} _.
Arguments urlStr {Ctx} _.
Arguments queryParams {Ctx} _.
Arguments requestBody {Ctx} _.
Arguments contentTypeOverride {Ctx} _.
Arguments mkWorld {Ctx Net} net calls logged.
Arguments net {Ctx Net} _.
Arguments calls {Ctx Net} _.
Arguments logged {Ctx Net} _.
Arguments ret {Ctx Net A} a _.
Arguments bind {Ctx Net A B} c k _.
Arguments do_request {Ctx Net} request args _.
Arguments log_Printf {Ctx Net} line _.
Arguments close_body {Ctx Net} who res _.
Arguments close_file {Ctx Net} filePath file _.
Arguments Create {Ctx Net} request parseStrictRFC3339 ctx requestBody _.
Arguments Send {Ctx Net} request ContentTypeFormData ctx id file fileName partNumber entropy _.
Arguments SendFileByPath {Ctx Net} request ContentTypeFormData fs ctx id filePath
  partNumber entropy _.

(** ** The vocabulary of the properties *)

(** The arguments of the one request [Create] makes. *)
Definition Create_args {Ctx : Type} (ctx : Ctx) (requestBody : option FileUploadCreateRequest)
  : RequestArgs Ctx :=
  mkArgs ctx "POST" "file_uploads" None (CreateRequestBody requestBody) EmptyString.

(** The arguments of the one request [Send] makes, [body] being the buffer
    it has filled. *)
Definition Send_args {Ctx : Type} (ContentTypeFormData : string) (ctx : Ctx)
    (id : FileUploadID) (body : string) : RequestArgs Ctx :=
  mkArgs ctx "POST" ("file_uploads/" ++ id ++ "/send") None (BufferBody body)
         ContentTypeFormData.

(** The lines the deferred closing of a response body logs. *)
Definition close_lines (who : string) (res : Response) : list string :=
  match Body_Close res with
  | Some errClose => [who ++ ": failed to close response body: " ++ Error errClose]
  | None => []
  end.

(** The lines the deferred closing of the file logs. *)
Definition close_file_lines (filePath : string) (file : os.File) : list string :=
  match os.Close file with
  | Some errClose =>
      ["SendFileByPath: failed to close file " ++ filePath ++ ": " ++ Error errClose]
  | None => []
  end.

(** An operation fails locally from the state [s]: it returns an error and
    has made no call of the transport. *)
Definition Create_fails_locally {Ctx Net : Type}
    (out : Result FileUpload * World Ctx Net) (s : World Ctx Net) : Prop :=
  (exists err, fst out = inr err) /\ calls (snd out) = calls s.

Definition Send_fails_locally {Ctx Net : Type}
    (out : option error * World Ctx Net) (s : World Ctx Net) : Prop :=
  (exists err, fst out = Some err) /\ calls (snd out) = calls s.

(** [NumberOfParts] is set and lies in 1..1000. *)
Definition parts_in_range (n : option Z) : bool :=
  match n with
  | Some k => (1 <=? k) && (k <=? 1000)
  | None => false
  end.

(** The length of the chain of errors an error wraps. *)
Fixpoint error_depth (e : error) : nat :=
  match e with New _ => O | Wrapped _ c => S (error_depth c) end.



(** *** The multipart/form-data document of a list of parts

    The body as section 4.2 of the specification describes it: every part
    is a delimiter line, its header lines, an empty line and its content;
    the line break after the content belongs to the delimiter that follows;
    the closing delimiter ends the document. *)

Module formdata.

Inductive Part : Type :=
| File (fieldname filename content : string)
| Field (fieldname value : string).

Definition headers (p : Part) : string :=
  match p with
  | File fieldname filename _ =>
      "Content-Disposition: form-data; name=" ++ str dquote ++
        multipart.escapeQuotes fieldname ++ str dquote ++
        "; filename=" ++ str dquote ++ multipart.escapeQuotes filename ++ str dquote ++ CRLF ++
      "Content-Type: application/octet-stream" ++ CRLF
  | Field fieldname _ =>
      "Content-Disposition: form-data; name=" ++ str dquote ++
        multipart.escapeQuotes fieldname ++ str dquote ++ CRLF
  end.

Definition content (p : Part) : string :=
  match p with
  | File _ _ c => c
  | Field _ v => v
  end.

Definition encapsulation (bd : string) (p : Part) : string :=
  "--" ++ bd ++ CRLF ++ headers p ++ CRLF ++ content p ++ CRLF.

Fixpoint encapsulations (bd : string) (ps : list Part) : string :=
  match ps with
  | [] => EmptyString
  | p :: rest => encapsulation bd p ++ encapsulations bd rest
  end.

Definition document (bd : string) (ps : list Part) : string :=
  encapsulations bd ps ++ "--" ++ bd ++ "--" ++ CRLF.

(** The parts [Send] is to put in the body. *)
Definition Send_parts (content fileName : string) (partNumber : option Z) : list Part :=
  File "file" fileName content ::
  match partNumber with
  | Some n => [Field "part_number" (Itoa n)]
  | None => []
  end.

End formdata.

(** *** Reading a multipart/form-data document back

    The reader a receiver of the body runs: it splits the document at the
    delimiter lines of the boundary declared to it, splits every part into
    its header lines and its content, and reads the names off the
    Content-Disposition line. *)

Module formreader.

(** [strip_prefix p s] is what follows [p] in [s], when [s] starts with [p]. *)
Fixpoint strip_prefix (p s : string) : option string :=
  match p, s with
  | EmptyString, _ => Some s
  | String a p', String b s' => if Ascii.eqb a b then strip_prefix p' s' else None
  | String _ _, EmptyString => None
  end.

(** [cut sep s]: the text before the first occurrence of [sep] in [s], and
    the text after it. *)
Fixpoint cut (sep s : string) : option (string * string) :=
  match strip_prefix sep s with
  | Some rest => Some (EmptyString, rest)
  | None =>
      match s with
      | EmptyString => None
      | String c s' =>
          match cut sep s' with
          | Some (before, after) => Some (String c before, after)
          | None => None
          end
      end
  end.

Definition occurs (sep s : string) : bool :=
  match cut sep s with Some _ => true | None => false end.

(** The header lines up to the empty line, and what follows it. *)
Fixpoint header_lines (fuel : nat) (s : string) : option (list string * string) :=
  match fuel with
  | O => None
  | S fuel' =>
      match cut CRLF s with
      | None => None
      | Some (line, rest) =>
          if String.eqb line EmptyString then Some ([], rest)
          else
            match header_lines fuel' rest with
            | Some (lines, rest') => Some (line :: lines, rest')
            | None => None
            end
      end
  end.

(** A quoted string, read up to its closing quote: its value and what
    follows the quote. *)
Fixpoint quoted (s : string) : option (string * string) :=
  match s with
  | EmptyString => None
  | String c rest =>
      if Ascii.eqb c dquote then Some (EmptyString, rest)
      else if Ascii.eqb c backslash then
        match rest with
        | String c1 rest1 =>
            match quoted rest1 with
            | Some (v, after) => Some (String c1 v, after)
            | None => None
            end
        | EmptyString => None
        end
      else
        match quoted rest with
        | Some (v, after) => Some (String c v, after)
        | None => None
        end
  end.

(** The part that header lines and a content make: a field for a lone
    Content-Disposition line with a name, a file for one that also has a
    file name and is followed by the Content-Type line of a byte stream. *)
Definition part_of (lines : list string) (content : string) : option formdata.Part :=
  match lines with
  | line :: more =>
      match strip_prefix ("Content-Disposition: form-data; name=" ++ str dquote) line with
      | Some r =>
          match quoted r, more with
          | Some (fieldname, EmptyString), [] => Some (formdata.Field fieldname content)
          | Some (fieldname, r1), [line2] =>
              match strip_prefix ("; filename=" ++ str dquote) r1 with
              | Some r2 =>
                  match quoted r2 with
                  | Some (filename, EmptyString) =>
                      if String.eqb line2 "Content-Type: application/octet-stream"
                      then Some (formdata.File fieldname filename content)
                      else None
                  | _ => None
                  end
              | None => None
              end
          | _, _ => None
          end
      | None => None
      end
  | [] => None
  end.

(** The parts of what follows a delimiter line, up to the closing
    delimiter, after which nothing may come. *)
Fixpoint parts (fuel : nat) (bd s : string) : option (list formdata.Part) :=
  match fuel with
  | O => None
  | S fuel' =>
      match header_lines (String.length s) s with
      | None => None
      | Some (lines, s1) =>
          match cut (CRLF ++ "--" ++ bd) s1 with
          | None => None
          | Some (content, s2) =>
              match part_of lines content with
              | None => None
              | Some p =>
                  match strip_prefix ("--" ++ CRLF) s2 with
                  | Some EmptyString => Some [p]
                  | Some _ => None
                  | None =>
                      match strip_prefix CRLF s2 with
                      | Some s3 =>
                          match parts fuel' bd s3 with
                          | Some ps => Some (p :: ps)
                          | None => None
                          end
                      | None => None
                      end
                  end
              end
          end
      end
  end.

Definition read (bd doc : string) : option (list formdata.Part) :=
  match strip_prefix ("--" ++ bd ++ CRLF) doc with
  | Some s => parts (String.length doc) bd s
  | None => None
  end.


End formreader.

(** *** Auxiliary notions *)

(** The transport [request] with every response body replaced by [f] of it. *)
Definition with_body {Ctx Net : Type} (f : ResponseBody -> ResponseBody)
    (request : RequestArgs Ctx -> Net -> Result Response * Net)
  : RequestArgs Ctx -> Net -> Result Response * Net :=
  fun args n =>
    match request args n with
    | (inl res, n') => (inl (mkResponse (StatusCode res) (f (Body res)) (Body_Close res)), n')
    | (inr err, n') => (inr err, n')
    end.

(** Reading a decimal numeral back, the inverse of [Itoa]. *)
Definition Atoi (s : string) : option Z :=
  option_map Z.of_int (NilZero.int_of_string s).

(** A writer whose last part is open and is the part [id]. *)
Definition open_part (w : multipart.Writer) (id : nat) : Prop :=
  exists p, multipart.lastpart w = Some p /\ multipart.part_id p = id /\
            multipart.closed p = false /\ multipart.we p = None.

(** What [Create] and [Send] return for a response the transport gave. *)
Definition Create_result (parseStrictRFC3339 : string -> Result time_Time) (res : Response)
  : Result FileUpload :=
  if StatusCode res =? 200 then handleFileUploadResponse parseStrictRFC3339 res
  else inr (Errorf_d "FileUploadClient.Create: unexpected status code: " (StatusCode res)).

Definition Send_result (res : Response) : option error :=
  if StatusCode res =? 200 then None
  else Some (Errorf_d "FileUploadClient.Send: unexpected status code: " (StatusCode res)).

(** *** Sample collaborators, for closed instances *)

(** A transport that answers every request with [r] and has no state. *)
Definition answer (r : Result Response) : RequestArgs unit -> unit -> Result Response * unit :=
  fun _ n => (r, n).

Definition world0 : World unit unit := mkWorld tt [] [].

(** A time parser that accepts nothing; the sample bodies hold no time. *)
Definition no_time : string -> Result time_Time :=
  fun s => inr (New ("parsing time " ++ s)).

(** A file system with one file, [/tmp/a.txt], that reads [hello]. *)
Definition sample_fs : string -> Result os.node :=
  fun path =>
    if String.eqb path "/tmp/a.txt"
    then inl (os.mkNode (ReadLast "hello" None) None None)
    else inr (New "no such file or directory").

(** 30 bytes of entropy, all [A], all [B]. *)
Definition entropy_A : string := "AAAAAAAAAAAAAAAAAAAAAAAAAAAAAA".
Definition entropy_B : string := "BBBBBBBBBBBBBBBBBBBBBBBBBBBBBB".

(** A response the service could give to a create call: status 200 and an
    object that reports the status [status]. *)
Definition reports (status : string) : Response :=
  mkResponse 200 (JSONBody (json.Obj [("status", json.Str status)])) None.

(** *** Further notions *)


(** The transport [request] with the outcome of closing every response
    body replaced by [c]. *)
Definition with_close {Ctx Net : Type} (c : option error)
    (request : RequestArgs Ctx -> Net -> Result Response * Net)
  : RequestArgs Ctx -> Net -> Result Response * Net :=
  fun args n =>
    match request args n with
    | (inl res, n') => (inl (mkResponse (StatusCode res) (Body res) c), n')
    | (inr err, n') => (inr err, n')
    end.

(** The file system [fs] with the outcome of closing every file replaced
    by [c]. *)
Definition with_file_close (c : option error) (fs : string -> Result os.node)
  : string -> Result os.node :=
  fun path =>
    match fs path with
    | inl node => inl (os.mkNode (os.contents node) (os.stat_errno node) c)
    | inr errno => inr errno
    end.

(** [s] starts with [p]. *)
Definition starts_with (p s : string) : Prop := exists rest, s = p ++ rest.

(** A response with the status code [code] and an empty object for body. *)
Definition status_only (code : Z) : Response :=
  mkResponse code (JSONBody (json.Obj [])) None.

(** The fields of [FileUpload] of a string type, with the way to read
    them. *)
Definition string_field (f : json.field) : option (FileUpload -> string) :=
  match f with
  | json.f_object => Some Object
  | json.f_id => Some ID
  | json.f_status => Some Status
  | json.f_filename => Some Filename
  | json.f_content_type => Some ContentType
  | json.f_upload_url => Some UploadURL
  | json.f_complete_url => Some CompleteURL
  | json.f_file_import_result => Some FileImportResult
  | _ => None
  end.

(** What a JSON object reports for the field [f]: the string of the last
    member that names [f] and holds a string, or [start] when no member
    does. *)
Fixpoint reported (f : json.field) (members : list (string * json.Value)) (start : string)
  : string :=
  match members with
  | [] => start
  | (key, v) :: rest =>
      match json.find_field key, v with
      | Some g, json.Str s =>
          if String.eqb (json.field_name g) (json.field_name f) then reported f rest s
          else reported f rest start
      | _, _ => reported f rest start
      end
  end.

(** * Properties *)

(** ** Strings, lists and errors *)

Lemma append_assoc (a b c : string) : (a ++ b) ++ c = a ++ (b ++ c).
Proof. induction a as [|x a IH]; simpl; [reflexivity | now rewrite IH]. Qed.

Lemma append_nil_r (a : string) : a ++ EmptyString = a.
Proof. induction a as [|x a IH]; simpl; [reflexivity | now rewrite IH]. Qed.

Lemma Wrapped_neq (m : string) (e : error) : Wrapped m e <> e.
Proof.
  intros H. apply (f_equal error_depth) in H. simpl in H.
  revert H. generalize (error_depth e). intros n H.
  induction n as [|n IH]; [discriminate | injection H; exact IH].
Qed.

Lemma app_one_neq {A : Type} (l : list A) (a : A) : (l ++ [a])%list <> l.
Proof.
  intros H. apply (f_equal (@List.length A)) in H.
  rewrite length_app in H. simpl in H. lia.
Qed.

Ltac norm_append :=
  repeat (progress cbn [append] || rewrite append_assoc || rewrite append_nil_r).

(** *** The multipart writer *)

Lemma part_Write_open w id d :
  open_part w id -> multipart.part_Write w id d = (multipart.buffer_Write w d, None).
Proof.
  intros (p & Hl & Hid & Hc & _). unfold multipart.part_Write.
  rewrite Hl, Hid, Hc, Nat.eqb_refl. reflexivity.
Qed.

Lemma buffer_Write_open w id d : open_part w id -> open_part (multipart.buffer_Write w d) id.
Proof. intros (p & H). exists p. exact H. Qed.

Lemma buffer_Write_nil w : multipart.buffer_Write w EmptyString = w.
Proof. destruct w. unfold multipart.buffer_Write. simpl. now rewrite append_nil_r. Qed.

Lemma buffer_Write_twice w a b :
  multipart.buffer_Write (multipart.buffer_Write w a) b = multipart.buffer_Write w (a ++ b).
Proof. unfold multipart.buffer_Write. simpl. now rewrite append_assoc. Qed.

Lemma write_chunk_open w id d :
  open_part w id ->
  (if String.eqb d EmptyString then (w, None) else multipart.part_Write w id d)
  = (multipart.buffer_Write w d, None).
Proof.
  intros H. destruct (String.eqb_spec d EmptyString) as [->|_].
  - now rewrite buffer_Write_nil.
  - now apply part_Write_open.
Qed.

(** [io.Copy] into an open part appends every byte the reader hands over
    and ends with the reader's error. *)
Lemma io_Copy_open file : forall w id,
  open_part w id ->
  io_Copy w id file = (multipart.buffer_Write w (reader_bytes file), reader_error file).
Proof.
  induction file as [d er | d rest IH]; intros w id H; simpl.
  - now rewrite (write_chunk_open w id d H).
  - rewrite (write_chunk_open w id d H).
    rewrite (IH _ id (buffer_Write_open w id d H)).
    now rewrite buffer_Write_twice.
Qed.

Lemma build_body_eq file fileName partNumber entropy :
  build_body file fileName partNumber entropy =
  match reader_error file with
  | Some err => inr (Errorf_w "FileUploadClient.Send: failed to copy file to form: " err)
  | None =>
      inl (formdata.document (multipart.randomBoundary entropy)
             (formdata.Send_parts (reader_bytes file) fileName partNumber))
  end.
Proof.
  unfold build_body.
  set (w0 := multipart.NewWriter EmptyString entropy).
  unfold multipart.CreateFormFile, multipart.CreatePart.
  cbn [w0 multipart.NewWriter multipart.lastpart].
  cbv beta iota zeta.
  match goal with |- context [io_Copy ?w ?i file] => rewrite (io_Copy_open file w i) end.
  2:{ eexists. cbn. repeat split; reflexivity. }
  destruct (reader_error file) as [err|]; [reflexivity|].
  destruct partNumber as [n|].
  - unfold multipart.WriteField, multipart.CreateFormField, multipart.CreatePart.
    cbv -[append Itoa multipart.escapeQuotes multipart.randomBoundary reader_bytes].
    f_equal. norm_append. reflexivity.
  - cbv -[append Itoa multipart.escapeQuotes multipart.randomBoundary reader_bytes].
    f_equal. norm_append. reflexivity.
Qed.

Lemma Atoi_Itoa (p : Z) : Atoi (Itoa p) = Some p.
Proof.
  unfold Atoi, Itoa. rewrite NilZero.isi.
  - simpl. now rewrite DecimalZ.of_to.
  - destruct p as [|q|q]; simpl; try discriminate.
    intros H. injection H. apply DecimalPos.Unsigned.to_uint_nonnil.
  - destruct p as [|q|q]; simpl; try discriminate.
    intros H. injection H. apply DecimalPos.Unsigned.to_uint_nonnil.
Qed.

(** *** Reading a document back *)



Lemma strip_prefix_nil s : formreader.strip_prefix EmptyString s = Some s.
Proof. now destruct s. Qed.


Lemma cut_unfold sep s :
  formreader.cut sep s =
  match formreader.strip_prefix sep s with
  | Some rest => Some (EmptyString, rest)
  | None =>
      match s with
      | EmptyString => None
      | String c s' =>
          match formreader.cut sep s' with
          | Some (before, after) => Some (String c before, after)
          | None => None
          end
      end
  end.
Proof. now destruct s. Qed.
















Lemma length_append (a b : string) :
  String.length (a ++ b) = (String.length a + String.length b)%nat.
Proof. induction a as [|c a IH]; simpl; [reflexivity | now rewrite IH]. Qed.







Lemma strip_prefix_Some p : forall s r,
  formreader.strip_prefix p s = Some r -> s = p ++ r.
Proof.
  induction p as [|a p IH]; intros s r H.
  - rewrite strip_prefix_nil in H. now injection H as ->.
  - destruct s as [|b s]; [discriminate|]. simpl in H.
    destruct (Ascii.eqb_spec a b) as [->|]; [|discriminate].
    simpl. now rewrite (IH s r H).
Qed.

Lemma cut_Some sep : forall s before after,
  formreader.cut sep s = Some (before, after) -> s = before ++ sep ++ after.
Proof.
  induction s as [|c s IH]; intros before after H; rewrite cut_unfold in H.
  - destruct (formreader.strip_prefix sep EmptyString) as [r|] eqn:Hp; [|discriminate].
    injection H as <- <-. now apply strip_prefix_Some in Hp.
  - destruct (formreader.strip_prefix sep (String c s)) as [r|] eqn:Hp.
    + injection H as <- <-. now apply strip_prefix_Some in Hp.
    + destruct (formreader.cut sep s) as [[a b]|] eqn:Hc; [|discriminate].
      injection H as <- <-. simpl. now rewrite (IH a b eq_refl).
Qed.

(** A separator does not occur in a shorter text. *)
Lemma occurs_shorter sep s :
  (String.length s < String.length sep)%nat -> formreader.occurs sep s = false.
Proof.
  intros H. unfold formreader.occurs.
  destruct (formreader.cut sep s) as [[a b]|] eqn:Hc; [|reflexivity].
  apply cut_Some in Hc. subst s. rewrite !length_append in H. lia.
Qed.

Lemma hex_length e : String.length (multipart.hex e) = (2 * String.length e)%nat.
Proof.
  induction e as [|c e IH]; [reflexivity|].
  cbn [multipart.hex]. unfold multipart.hex_byte.
  cbn [append String.length]. rewrite IH. lia.
Qed.

(** A boundary drawn by [randomBoundary] needs no quotes. *)
Lemma hex_without_tspecials e :
  multipart.ContainsAny (multipart.hex e) multipart.tspecials = false.
Proof.
  induction e as [|c e IH]; [reflexivity|].
  cbn [multipart.hex]. unfold multipart.hex_byte.
  cbn [append multipart.ContainsAny]. rewrite IH.
  destruct c as [[] [] [] [] [] [] [] []]; reflexivity.
Qed.

Lemma FormDataContentType_NewWriter buf entropy :
  multipart.FormDataContentType (multipart.NewWriter buf entropy) =
  "multipart/form-data; boundary=" ++ multipart.randomBoundary entropy.
Proof.
  unfold multipart.FormDataContentType, multipart.NewWriter, multipart.randomBoundary.
  cbn [multipart.boundary]. now rewrite hex_without_tspecials.
Qed.

(** *** The decoder keeps the status the body reports *)




Section Runs.

Variable Ctx : Type.
Variable Net : Type.
Variable request : RequestArgs Ctx -> Net -> Result Response * Net.
Variable ContentTypeFormData : string.
Variable parseStrictRFC3339 : string -> Result time_Time.
Variable fs : string -> Result os.node.

(** *** What one run of each operation does *)

Lemma close_body_run who res (s : World Ctx Net) :
  close_body who res s = (tt, mkWorld (net s) (calls s) (logged s ++ close_lines who res)).
Proof.
  unfold close_body, close_lines. destruct (Body_Close res); [reflexivity|].
  unfold ret. rewrite app_nil_r. now destruct s.
Qed.

Lemma Create_run ctx rb (s : World Ctx Net) :
  Create request parseStrictRFC3339 ctx rb s =
  match request (Create_args ctx rb) (net s) with
  | (inr err, n) => (inr err, mkWorld n (calls s ++ [Create_args ctx rb]) (logged s))
  | (inl res, n) =>
      (Create_result parseStrictRFC3339 res,
       mkWorld n (calls s ++ [Create_args ctx rb])
               (logged s ++ close_lines "FileUploadClient.Create" res))
  end.
Proof.
  unfold Create, bind, do_request, Create_args, http.MethodPost.
  destruct (request _ (net s)) as [[res|err] n]; [|reflexivity].
  rewrite close_body_run. unfold ret, Create_result, http.StatusOK. cbn [net calls logged].
  now destruct (StatusCode res =? 200).
Qed.

Lemma Send_run ctx id file fileName partNumber entropy (s : World Ctx Net) :
  Send request ContentTypeFormData ctx id file fileName partNumber entropy s =
  match build_body file fileName partNumber entropy with
  | inr err => (Some err, s)
  | inl body =>
      let args := Send_args ContentTypeFormData ctx id body in
      match request args (net s) with
      | (inr err, n) =>
          (Some (Errorf_w "FileUploadClient.Send: request failed: " err),
           mkWorld n (calls s ++ [args]) (logged s))
      | (inl res, n) =>
          (Send_result res,
           mkWorld n (calls s ++ [args]) (logged s ++ close_lines "FileUploadClient.Send" res))
      end
  end.
Proof.
  unfold Send. destruct (build_body file fileName partNumber entropy) as [body|err];
    [|reflexivity].
  unfold bind, do_request, Send_args, http.MethodPost. cbv zeta.
  destruct (request _ (net s)) as [[res|err] n]; [|reflexivity].
  rewrite close_body_run. unfold ret, Send_result, http.StatusOK. cbn [net calls logged].
  now destruct (StatusCode res =? 200).
Qed.

Lemma close_file_run filePath file (s : World Ctx Net) :
  close_file filePath file s =
  (tt, mkWorld (net s) (calls s) (logged s ++ close_file_lines filePath file)).
Proof.
  unfold close_file, close_file_lines. destruct (os.Close file); [reflexivity|].
  unfold ret. rewrite app_nil_r. now destruct s.
Qed.

Lemma SendFileByPath_run ctx id filePath partNumber entropy (s : World Ctx Net) :
  SendFileByPath request ContentTypeFormData fs ctx id filePath partNumber entropy s =
  match fs filePath with
  | inr errno =>
      (Some (Errorf_w ("SendFileByPath: failed to open file " ++ filePath ++ ": ")
                      (os.PathError "open" filePath errno)), s)
  | inl node =>
      let file := os.mkFile filePath node in
      match os.stat_errno node with
      | Some errno =>
          (Some (Errorf_w ("SendFileByPath: failed to get file info for " ++ filePath ++ ": ")
                          (os.PathError "stat" filePath errno)),
           mkWorld (net s) (calls s) (logged s ++ close_file_lines filePath file))
      | None =>
          let sent := Send request ContentTypeFormData ctx id (os.contents node)
                           (os.basename filePath) partNumber entropy s in
          (fst sent,
           mkWorld (net (snd sent)) (calls (snd sent))
                   (logged (snd sent) ++ close_file_lines filePath file))
      end
  end.
Proof.
  unfold SendFileByPath, os.Open. destruct (fs filePath) as [node|errno]; [|reflexivity].
  unfold bind, os.Stat_Name. cbn [os.file_node os.name].
  destruct (os.stat_errno node) as [errno|].
  - unfold ret. now rewrite close_file_run.
  - cbv zeta. destruct (Send _ _ _ _ _ _ _ _ s) as [r s1].
    now rewrite close_file_run.
Qed.


End Runs.

Section Properties.

Variable Ctx : Type.
Variable Net : Type.
Variable request : RequestArgs Ctx -> Net -> Result Response * Net.
Variable ContentTypeFormData : string.
Variable parseStrictRFC3339 : string -> Result time_Time.
Variable fs : string -> Result os.node.

(** *** Create *)

(** C2 (as amended).  A create request in multi_part mode whose number of
    parts is missing or outside 1..1000 is not checked by [Create]: the
    transport is called exactly once, with the request as it was given, and
    what [Create] returns is decided by the transport's answer alone. *)
Theorem Create_does_not_validate_parts ctx req (s : World Ctx Net) :
  Mode req = FileUploadModeMultiPart ->
  parts_in_range (NumberOfParts req) = false ->
  let out := Create request parseStrictRFC3339 ctx (Some req) s in
  calls (snd out) = (calls s ++ [Create_args ctx (Some req)])%list /\
  ~ Create_fails_locally out s /\
  fst out = match fst (request (Create_args ctx (Some req)) (net s)) with
            | inr err => inr err
            | inl res => Create_result parseStrictRFC3339 res
            end.
Proof.
  intros _ _ out. subst out. rewrite Create_run.
  destruct (request _ (net s)) as [[res|err] n]; cbn [fst snd calls];
    (split; [reflexivity|]); (split; [|reflexivity]);
    intros [_ H]; cbn [snd calls] in H; now apply app_one_neq in H.
Qed.

(** C3 (as amended).  A create request in multi_part mode with an empty
    file name, or in external_url mode with an empty URL, is not checked by
    [Create] either: it does not fail locally, the transport is called
    exactly once with the request as it was given, and a 200 response whose
    body decodes makes [Create] return the decoded record. *)
Theorem Create_does_not_validate_names ctx req (s : World Ctx Net) :
  (Mode req = FileUploadModeMultiPart /\ req_Filename req = EmptyString) \/
  (Mode req = FileUploadModeExternalURL /\ ExternalURL req = EmptyString) ->
  let out := Create request parseStrictRFC3339 ctx (Some req) s in
  ~ Create_fails_locally out s /\
  calls (snd out) = (calls s ++ [Create_args ctx (Some req)])%list /\
  requestBody (Create_args ctx (Some req)) = CreateRequestBody (Some req) /\
  forall res n record,
    request (Create_args ctx (Some req)) (net s) = (inl res, n) ->
    StatusCode res = 200 ->
    Decode parseStrictRFC3339 (Body res) zero_FileUpload = inl record ->
    fst out = inl record.
Proof.
  intros _ out. subst out. rewrite Create_run.
  destruct (request _ (net s)) as [[res|err] n] eqn:Hreq; cbn [fst snd calls].
  - split; [intros [_ H]; now apply app_one_neq in H|].
    split; [reflexivity|]. split; [reflexivity|].
    intros res' n' record [= <- <-] Hst Hdec.
    unfold Create_result, handleFileUploadResponse. rewrite Hst, Hdec. reflexivity.
  - split; [intros [_ H]; now apply app_one_neq in H|].
    split; [reflexivity|]. split; [reflexivity|].
    intros res' n' record H. discriminate H.
Qed.

(** C6.  When the transport answers, [Create] returns an error if the
    status code is not 200, an error if the status code is 200 and the body
    does not decode into a [FileUpload], and the decoded record, with no
    error, if the status code is 200 and the body decodes. *)
Theorem Create_handles_response ctx requestBody (s : World Ctx Net) res n :
  request (Create_args ctx requestBody) (net s) = (inl res, n) ->
  let out := fst (Create request parseStrictRFC3339 ctx requestBody s) in
  (StatusCode res <> 200 ->
   out = inr (Errorf_d "FileUploadClient.Create: unexpected status code: " (StatusCode res))) /\
  (StatusCode res = 200 ->
   forall err, Decode parseStrictRFC3339 (Body res) zero_FileUpload = inr err ->
   out = inr (Errorf_w "handleFileUploadResponse: failed to decode json: " err)) /\
  (StatusCode res = 200 ->
   forall record, Decode parseStrictRFC3339 (Body res) zero_FileUpload = inl record ->
   out = inl record).
Proof.
  intros Hreq out. subst out. rewrite Create_run, Hreq. cbn [fst].
  unfold Create_result, handleFileUploadResponse.
  split; [|split].
  - intros H. apply Z.eqb_neq in H. now rewrite H.
  - intros H err Hd. now rewrite H, Hd.
  - intros H record Hd. now rewrite H, Hd.
Qed.


(** *** Send *)

(** C1 (the code at the failing input).  Whatever the value of the constant
    [ContentTypeFormData], it is what [Send] hands the transport as content
    type, for every boundary the multipart writer draws.  So for one of the
    two boundaries drawn from [entropy_A] and [entropy_B] the content type
    handed over is not the one that declares the boundary of the body,
    [FormDataContentType] of the writer; and a constant of fewer than 60
    characters holds none of the boundaries drawn from 30 bytes. *)
Theorem Send_content_type_is_constant ctx id file fileName partNumber (s : World Ctx Net) :
  (forall entropy,
     let out := Send request ContentTypeFormData ctx id file fileName partNumber entropy s in
     match reader_error file with
     | None =>
         calls (snd out) =
         (calls s ++
          [mkArgs ctx "POST" ("file_uploads/" ++ id ++ "/send") None
             (BufferBody (formdata.document (multipart.randomBoundary entropy)
                            (formdata.Send_parts (reader_bytes file) fileName partNumber)))
             ContentTypeFormData])%list
     | Some _ => calls (snd out) = calls s
     end) /\
  (ContentTypeFormData <>
     multipart.FormDataContentType (multipart.NewWriter EmptyString entropy_A) \/
   ContentTypeFormData <>
     multipart.FormDataContentType (multipart.NewWriter EmptyString entropy_B)) /\
  ((String.length ContentTypeFormData <? 60)%nat = true ->
   forall entropy,
     String.length entropy = 30%nat ->
     formreader.occurs (multipart.randomBoundary entropy) ContentTypeFormData = false).
Proof.
  split; [|split].
  - intros entropy out. subst out. rewrite Send_run, build_body_eq.
    destruct (reader_error file) as [err|]; [reflexivity|].
    cbv zeta. unfold Send_args.
    destruct (request _ (net s)) as [[res|err] n]; reflexivity.
  - destruct (string_dec ContentTypeFormData
                (multipart.FormDataContentType (multipart.NewWriter EmptyString entropy_A)))
      as [->|H]; [right; vm_compute; discriminate | left; exact H].
  - intros Hlen entropy He. apply Nat.ltb_lt in Hlen. apply occurs_shorter.
    unfold multipart.randomBoundary. rewrite hex_length, He. exact Hlen.
Qed.


(** C5.  [Send] returns nil exactly when the body was built, the transport
    answered and the status code is 200; the response body plays no part in
    it; and when building the body fails, as it does when reading the
    content fails, [Send] returns the error with no call of the transport
    and no other effect. *)
Theorem Send_success_and_local_failure ctx id file fileName partNumber entropy
    (s : World Ctx Net) :
  let out := Send request ContentTypeFormData ctx id file fileName partNumber entropy s in
  (fst out = None <->
   exists body res n,
     build_body file fileName partNumber entropy = inl body /\
     request (Send_args ContentTypeFormData ctx id body) (net s) = (inl res, n) /\
     StatusCode res = 200) /\
  (forall f,
     Send (with_body f request) ContentTypeFormData ctx id file fileName partNumber entropy s
     = out) /\
  (forall err, build_body file fileName partNumber entropy = inr err -> out = (Some err, s)) /\
  (forall err, reader_error file = Some err ->
     out = (Some (Errorf_w "FileUploadClient.Send: failed to copy file to form: " err), s) /\
     Send_fails_locally out s).
Proof.
  intros out. subst out. split; [|split; [|split]].
  - rewrite Send_run.
    destruct (build_body file fileName partNumber entropy) as [body|e].
    + cbv zeta. destruct (request _ (net s)) as [[res|e] n] eqn:Hreq; cbn [fst].
      * unfold Send_result. destruct (Z.eqb_spec (StatusCode res) 200) as [H|H].
        -- split; [intros _; now exists body, res, n|reflexivity].
        -- split; [discriminate|].
           intros (b & r & m & [= <-] & Hr & Hs). rewrite Hreq in Hr.
           injection Hr as <- _. contradiction.
      * split; [discriminate|].
        intros (b & r & m & [= <-] & Hr & _). rewrite Hreq in Hr. discriminate.
    + cbn [fst]. split; [discriminate|]. intros (b & r & m & H & _). discriminate.
  - intros f. rewrite !Send_run.
    destruct (build_body file fileName partNumber entropy) as [body|e]; [|reflexivity].
    cbv zeta. unfold with_body.
    destruct (request _ (net s)) as [[res|e] n]; reflexivity.
  - intros err H. now rewrite Send_run, H.
  - intros err H. rewrite Send_run, build_body_eq, H.
    split; [reflexivity|]. split; [now eexists|reflexivity].
Qed.


(** *** Errors of the transport *)

(** C7 (as amended).  When the transport returns an error, [Create] returns
    that very error; [Send], and [SendFileByPath] through it, return a new
    error that wraps it, its message the prefix of [Send] followed by the
    message of the transport's error.  None of the three calls the transport
    again: the call that failed is the only one. *)
Theorem transport_error_is_returned ctx (s : World Ctx Net) err n :
  (forall requestBody,
     request (Create_args ctx requestBody) (net s) = (inr err, n) ->
     Create request parseStrictRFC3339 ctx requestBody s =
     (inr err, mkWorld n (calls s ++ [Create_args ctx requestBody]) (logged s))) /\
  (forall id file fileName partNumber entropy body,
     build_body file fileName partNumber entropy = inl body ->
     request (Send_args ContentTypeFormData ctx id body) (net s) = (inr err, n) ->
     Send request ContentTypeFormData ctx id file fileName partNumber entropy s =
     (Some (Wrapped ("FileUploadClient.Send: request failed: " ++ Error err) err),
      mkWorld n (calls s ++ [Send_args ContentTypeFormData ctx id body]) (logged s)) /\
     fst (Send request ContentTypeFormData ctx id file fileName partNumber entropy s)
     <> Some err) /\
  (forall id filePath partNumber entropy node body,
     fs filePath = inl node ->
     os.stat_errno node = None ->
     build_body (os.contents node) (os.basename filePath) partNumber entropy = inl body ->
     request (Send_args ContentTypeFormData ctx id body) (net s) = (inr err, n) ->
     let out := SendFileByPath request ContentTypeFormData fs ctx id filePath partNumber
                               entropy s in
     fst out = Some (Wrapped ("FileUploadClient.Send: request failed: " ++ Error err) err) /\
     calls (snd out) = (calls s ++ [Send_args ContentTypeFormData ctx id body])%list).
Proof.
  split; [|split].
  - intros requestBody H. now rewrite Create_run, H.
  - intros id file fileName partNumber entropy body Hb H.
    rewrite Send_run, Hb. cbv zeta. rewrite H. split; [reflexivity|].
    cbn [fst]. intros [= Hw]. now apply Wrapped_neq in Hw.
  - intros id filePath partNumber entropy node body Hfs Hstat Hb H out. subst out.
    rewrite SendFileByPath_run, Hfs, Hstat. cbv zeta.
    rewrite Send_run, Hb. cbv zeta. rewrite H. split; reflexivity.
Qed.

(** *** SendFileByPath *)


End Properties.

(** ** Closed instances *)

(** C2: the claim fails.  Create requests in multi_part mode with no number
    of parts, with 0 parts and with 1001 parts all reach a transport that
    answers 200: none of the calls fails locally. *)
Lemma Create_parts_unchecked_counterexample :
  let create parts :=
    Create (answer (inl (reports "pending"))) no_time tt
           (Some (mkCreateRequest "multi_part" "big.bin" EmptyString parts EmptyString))
           world0 in
  ~ Create_fails_locally (create None) world0 /\
  ~ Create_fails_locally (create (Some 0)) world0 /\
  ~ Create_fails_locally (create (Some 1001)) world0.
Proof.
  cbv zeta. repeat split; intros [[err H] _]; vm_compute in H; discriminate H.
Qed.

(** C2, at a request for 1001 parts and a service that answers 200. *)
Lemma Create_does_not_validate_parts_witness :
  let req := mkCreateRequest "multi_part" "big.bin" EmptyString (Some 1001) EmptyString in
  let out := Create (answer (inl (reports "pending"))) no_time tt (Some req) world0 in
  calls (snd out) = [Create_args tt (Some req)] /\
  ~ Create_fails_locally out world0 /\
  fst out = Create_result no_time (reports "pending").
Proof.
  exact (Create_does_not_validate_parts unit unit (answer (inl (reports "pending"))) no_time tt
           (mkCreateRequest "multi_part" "big.bin" EmptyString (Some 1001) EmptyString)
           world0 eq_refl eq_refl).
Defined.

(** C3: the claim fails.  A multi_part request with no file name and an
    external_url request with no URL both reach the transport, and both
    calls return a record. *)
Lemma Create_names_unchecked_counterexample :
  let create req := Create (answer (inl (reports "pending"))) no_time tt (Some req) world0 in
  ~ Create_fails_locally
      (create (mkCreateRequest "multi_part" EmptyString EmptyString (Some 2) EmptyString))
      world0 /\
  ~ Create_fails_locally
      (create (mkCreateRequest "external_url" "a.png" EmptyString None EmptyString))
      world0.
Proof.
  cbv zeta. split; intros [[err H] _]; vm_compute in H; discriminate H.
Qed.

(** C3, at an external_url request with no URL and a service that answers 200. *)
Lemma Create_does_not_validate_names_witness :
  let req := mkCreateRequest "external_url" "a.png" EmptyString None EmptyString in
  let out := Create (answer (inl (reports "pending"))) no_time tt (Some req) world0 in
  ~ Create_fails_locally out world0 /\
  calls (snd out) = [Create_args tt (Some req)] /\
  requestBody (Create_args tt (Some req)) = CreateRequestBody (Some req) /\
  forall res n record,
    answer (inl (reports "pending")) (Create_args tt (Some req)) tt = (inl res, n) ->
    StatusCode res = 200 ->
    Decode no_time (Body res) zero_FileUpload = inl record ->
    fst out = inl record.
Proof.
  exact (Create_does_not_validate_names unit unit (answer (inl (reports "pending"))) no_time tt
           (mkCreateRequest "external_url" "a.png" EmptyString None EmptyString)
           world0 (or_intror (conj eq_refl eq_refl))).
Defined.

(** C6, at a service that answers 200 and reports the status pending. *)
Lemma Create_handles_response_witness :
  let out := fst (Create (answer (inl (reports "pending"))) no_time tt None world0) in
  (200 <> 200 ->
   out = inr (Errorf_d "FileUploadClient.Create: unexpected status code: " 200)) /\
  (200 = 200 ->
   forall err, Decode no_time (Body (reports "pending")) zero_FileUpload = inr err ->
   out = inr (Errorf_w "handleFileUploadResponse: failed to decode json: " err)) /\
  (200 = 200 ->
   forall record, Decode no_time (Body (reports "pending")) zero_FileUpload = inl record ->
   out = inl record).
Proof.
  exact (Create_handles_response unit unit (answer (inl (reports "pending"))) no_time tt None
           world0 (reports "pending") tt eq_refl).
Defined.




(** C1, at the content hello, the name a.txt and the two boundaries: the
    bodies are framed by different boundaries and the content type handed
    to the transport is the same, here with multipart/form-data for the
    constant. *)
Example Send_content_type_at_two_boundaries :
  let tr := answer (inl (reports "pending")) in
  let ct := "multipart/form-data" in
  let sent entropy :=
    calls (snd (Send tr ct tt "id" (ReadLast "hello" None) "a.txt" None entropy world0)) in
  sent entropy_A =
    [mkArgs tt "POST" "file_uploads/id/send" None
       (BufferBody
          (formdata.document "414141414141414141414141414141414141414141414141414141414141"
             [formdata.File "file" "a.txt" "hello"]))
       "multipart/form-data"] /\
  sent entropy_B =
    [mkArgs tt "POST" "file_uploads/id/send" None
       (BufferBody
          (formdata.document "424242424242424242424242424242424242424242424242424242424242"
             [formdata.File "file" "a.txt" "hello"]))
       "multipart/form-data"] /\
  multipart.FormDataContentType (multipart.NewWriter EmptyString entropy_A) =
    "multipart/form-data; boundary=414141414141414141414141414141414141414141414141414141414141".
Proof. cbv zeta. repeat split; vm_compute; reflexivity. Qed.

(** The bytes of a document, here for the boundary [b], the content hello
    under the name a.txt and the part number 3. *)
Example document_layout :
  formdata.document "b" (formdata.Send_parts "hello" "a.txt" (Some 3)) =
  "--b" ++ CRLF ++
  "Content-Disposition: form-data; name=" ++ str dquote ++ "file" ++ str dquote ++
    "; filename=" ++ str dquote ++ "a.txt" ++ str dquote ++ CRLF ++
  "Content-Type: application/octet-stream" ++ CRLF ++
  CRLF ++
  "hello" ++ CRLF ++
  "--b" ++ CRLF ++
  "Content-Disposition: form-data; name=" ++ str dquote ++ "part_number" ++ str dquote ++ CRLF ++
  CRLF ++
  "3" ++ CRLF ++
  "--b--" ++ CRLF.
Proof. reflexivity. Qed.

(** The hypothesis of [read_document] on the content cannot be dropped: a
    content that holds the delimiter of the boundary is read back as more
    than one part.  The writer draws its boundary at random for this not to
    happen. *)
Example content_with_delimiter_is_split :
  let content :=
    "x" ++ CRLF ++ "--b" ++ CRLF ++
    "Content-Disposition: form-data; name=" ++ str dquote ++ "part_number" ++ str dquote ++
    CRLF ++ CRLF ++ "9" in
  formreader.read "b" (formdata.document "b" (formdata.Send_parts content "a.txt" None)) =
  Some [formdata.File "file" "a.txt" "x"; formdata.Field "part_number" "9"].
Proof. reflexivity. Qed.

(** C7: the claim fails for [Send].  The transport fails with an error;
    whatever the constant [ContentTypeFormData] is, the error [Send] returns
    is not that error. *)
Lemma Send_transport_error_counterexample :
  ~ (exists ContentTypeFormData,
       fst (Send (answer (inr (New "connection refused"))) ContentTypeFormData tt "id"
                 (ReadLast "hello" None) "a.txt" None entropy_A world0)
       = Some (New "connection refused")).
Proof.
  intros [ct H]. rewrite Send_run, build_body_eq in H. cbn in H. discriminate H.
Qed.

(** C7, at a transport that refuses the connection. *)
Lemma transport_error_is_returned_witness :
  let err := New "connection refused" in
  let tr := answer (inr err) in
  let ct := "multipart/form-data" in
  let body := formdata.document (multipart.randomBoundary entropy_A)
                [formdata.File "file" "a.txt" "hello"] in
  fst (Create tr no_time tt None world0) = inr err /\
  fst (Send tr ct tt "id" (ReadLast "hello" None) "a.txt" None entropy_A world0) =
    Some (Wrapped "FileUploadClient.Send: request failed: connection refused" err) /\
  fst (SendFileByPath tr ct sample_fs tt "id" "/tmp/a.txt" None entropy_A world0) =
    Some (Wrapped "FileUploadClient.Send: request failed: connection refused" err) /\
  calls (snd (SendFileByPath tr ct sample_fs tt "id" "/tmp/a.txt" None entropy_A world0)) =
    [Send_args ct tt "id" body].
Proof.
  cbv zeta.
  pose proof (transport_error_is_returned unit unit (answer (inr (New "connection refused")))
                "multipart/form-data" no_time sample_fs tt world0
                (New "connection refused") tt) as (Hc & Hs & Hp).
  split; [exact (f_equal fst (Hc None eq_refl))|].
  split; [exact (f_equal fst (proj1 (Hs "id" (ReadLast "hello" None) "a.txt" None entropy_A _
                                       eq_refl eq_refl)))|].
  exact (Hp "id" "/tmp/a.txt" None entropy_A
            (os.mkNode (ReadLast "hello" None) None None) _ eq_refl eq_refl eq_refl eq_refl).
Defined.

(** C5, at a send that succeeds and at one whose content fails to be read. *)
Lemma Send_success_and_local_failure_witness :
  let tr := answer (inl (reports "pending")) in
  let ct := "multipart/form-data" in
  fst (Send tr ct tt "id" (ReadLast "hello" None) "a.txt" None entropy_A world0) = None /\
  Send_fails_locally
    (Send tr ct tt "id" (ReadMore "he" (ReadLast EmptyString (Some (New "unexpected EOF"))))
          "a.txt" None entropy_A world0)
    world0.
Proof.
  cbv zeta. split.
  - apply (proj1 (Send_success_and_local_failure unit unit (answer (inl (reports "pending")))
                    "multipart/form-data" tt "id" (ReadLast "hello" None) "a.txt" None
                    entropy_A world0)).
    eexists _, (reports "pending"), tt. repeat split; reflexivity.
  - apply (proj2 (proj2 (proj2
             (Send_success_and_local_failure unit unit (answer (inl (reports "pending")))
                "multipart/form-data" tt "id"
                (ReadMore "he" (ReadLast EmptyString (Some (New "unexpected EOF"))))
                "a.txt" None entropy_A world0))) (New "unexpected EOF") eq_refl).
Defined.



(** ** Further lemmas on strings *)






(** Members that name no field leave the struct and the recorded error as
    they are. *)
Lemma object_unknown_members parse members r saved :
  Forall (fun kv => json.find_field (fst kv) = None) members ->
  json.object parse members r saved = inl (r, saved).
Proof.
  induction 1 as [|[key v] rest Hkey _ IH]; [reflexivity|].
  simpl in *. now rewrite Hkey.
Qed.

(** ** Decoding, member by member *)

Lemma object_keeps_error parse members : forall r e r' saved,
  json.object parse members r (Some e) = inl (r', saved) -> saved = Some e.
Proof.
  induction members as [|[key v] rest IH]; intros r e r' saved H; cbn [json.object] in H.
  - now injection H as _ <-.
  - destruct (json.find_field key) as [f|]; [|now apply IH in H].
    destruct (json.store parse r f v) as [r1|r1 e1|e1]; [| |discriminate];
      now apply IH in H.
Qed.

(** A member whose value its field does not take leaves no way to a
    record. *)
Lemma object_refuses parse members key v f :
  In (key, v) members ->
  json.find_field key = Some f ->
  (forall r, match json.store parse r f v with json.Stored _ => False | _ => True end) ->
  forall r saved r', json.object parse members r saved <> inl (r', None).
Proof.
  intros Hin Hf Hbad.
  induction members as [|[key0 v0] rest IH]; [destruct Hin|].
  intros r saved r' H. cbn [json.object] in H.
  destruct Hin as [[= -> ->]|Hin].
  - rewrite Hf in H. specialize (Hbad r).
    destruct (json.store parse r f v) as [r1|r1 e1|e1]; [contradiction| |discriminate].
    destruct saved as [e0|]; now apply object_keeps_error in H.
  - destruct (json.find_field key0) as [g|]; [|exact (IH Hin _ _ _ H)].
    destruct (json.store parse r g v0) as [r1|r1 e1|e1]; [| |discriminate];
      exact (IH Hin _ _ _ H).
Qed.

Lemma unmarshal_refuses parse members key v f r :
  In (key, v) members ->
  json.find_field key = Some f ->
  (forall r, match json.store parse r f v with json.Stored _ => False | _ => True end) ->
  exists err, json.unmarshal parse (json.Obj members) r = inr err.
Proof.
  intros Hin Hf Hbad. unfold json.unmarshal.
  pose proof (object_refuses parse members key v f Hin Hf Hbad r None) as H.
  destruct (json.object parse members r None) as [[r' [e|]]|e]; eauto.
  now contradiction (H r').
Qed.

Lemma store_string_field parse f get :
  string_field f = Some get ->
  forall r g v,
    match json.store parse r g v with
    | json.Stored r' | json.Saved r' _ =>
        get r' = match v with
                 | json.Str s =>
                     if String.eqb (json.field_name g) (json.field_name f) then s else get r
                 | _ => get r
                 end
    | json.Abort _ => True
    end.
Proof.
  intros Hget r g v.
  destruct f; try discriminate Hget; injection Hget as <-;
    destruct v as [|b|lit|st|els|ms]; destruct g;
    unfold json.store, json.store_string, json.store_time, json.Time_UnmarshalJSON,
           json.alloc_ContentLength;
    try reflexivity;
    try (destruct (parse st); reflexivity);
    try (destruct (json.ParseInt lit); reflexivity);
    try (destruct (ContentLength r); reflexivity);
    try (destruct (json.ParseInt lit); [reflexivity|]; destruct (ContentLength r); reflexivity).
Qed.

Lemma object_string_field parse f get :
  string_field f = Some get ->
  forall members r saved r' saved',
    json.object parse members r saved = inl (r', saved') ->
    get r' = reported f members (get r).
Proof.
  intros Hget.
  induction members as [|[key v] rest IH]; intros r saved r' saved' H;
    cbn [json.object reported] in H |- *.
  - now injection H as <- _.
  - destruct (json.find_field key) as [g|]; [|now apply IH in H].
    pose proof (store_string_field parse f get Hget r g v) as Hs.
    destruct (json.store parse r g v) as [r1|r1 e|e]; [| |discriminate];
      apply IH in H; rewrite H, Hs; destruct v; try reflexivity;
      destruct (String.eqb (json.field_name g) (json.field_name f)); reflexivity.
Qed.

Lemma find_field_folded key f :
  json.foldName key = json.foldName (json.field_name f) ->
  json.find_field key = Some f.
Proof.
  intros H. unfold json.find_field.
  destruct (find (fun g => String.eqb (json.field_name g) key) json.fields) as [g|] eqn:Hg.
  - apply find_some in Hg. destruct Hg as [_ Hg]. apply String.eqb_eq in Hg.
    rewrite <- Hg in H. destruct g, f; try reflexivity; vm_compute in H; discriminate H.
  - rewrite H. destruct f; reflexivity.
Qed.

Lemma reported_last f key x before : forall start,
  json.find_field key = Some f ->
  reported f (before ++ [(key, json.Str x)]) start = x.
Proof.
  intros start Hf. revert start.
  induction before as [|[k v] rest IH]; intros start; cbn [app reported].
  - now rewrite Hf, String.eqb_refl.
  - destruct (json.find_field k) as [g|]; [|apply IH].
    destruct v; try apply IH.
    destruct (String.eqb (json.field_name g) (json.field_name f)); apply IH.
Qed.

Lemma Create_result_string_field parse res members record f get :
  Body res = JSONBody (json.Obj members) ->
  Create_result parse res = inl record ->
  string_field f = Some get ->
  get record = reported f members EmptyString.
Proof.
  intros Hbody Hok Hget.
  unfold Create_result, handleFileUploadResponse, Decode in Hok.
  destruct (StatusCode res =? 200); [|discriminate]. rewrite Hbody in Hok.
  unfold json.unmarshal in Hok.
  destruct (json.object parse members zero_FileUpload None) as [[r' [e|]]|e] eqn:H;
    try discriminate.
  injection Hok as <-.
  rewrite (object_string_field parse f get Hget _ _ _ _ _ H).
  destruct f; try discriminate Hget; injection Hget as <-; reflexivity.
Qed.


(** * Further properties of the client *)

Section FurtherProperties.

Variable Ctx : Type.
Variable Net : Type.
Variable request : RequestArgs Ctx -> Net -> Result Response * Net.
Variable ContentTypeFormData : string.
Variable parseStrictRFC3339 : string -> Result time_Time.
Variable fs : string -> Result os.node.

(** X1.  A failure to close the response body is only logged: whatever
    closing the body gives, [Create] and [Send] return the same result, make
    the same call and leave the network in the same state as when it closes
    cleanly; they log nothing then, and one line naming the operation and
    the failure when it fails after a response came. *)
Theorem close_failure_is_only_logged c ctx (s : World Ctx Net) :
  (forall requestBody,
     let clean := Create (with_close None request) parseStrictRFC3339 ctx requestBody s in
     let out := Create (with_close c request) parseStrictRFC3339 ctx requestBody s in
     fst out = fst clean /\ calls (snd out) = calls (snd clean) /\
     net (snd out) = net (snd clean) /\ logged (snd clean) = logged s /\
     logged (snd out) =
       (logged s ++
        match c, fst (request (Create_args ctx requestBody) (net s)) with
        | Some errClose, inl _ =>
            [("FileUploadClient.Create: failed to close response body: " ++ Error errClose)%string]
        | _, _ => []
        end)%list) /\
  (forall id file fileName partNumber entropy,
     let clean := Send (with_close None request) ContentTypeFormData ctx id file fileName
                       partNumber entropy s in
     let out := Send (with_close c request) ContentTypeFormData ctx id file fileName
                     partNumber entropy s in
     fst out = fst clean /\ calls (snd out) = calls (snd clean) /\
     net (snd out) = net (snd clean) /\ logged (snd clean) = logged s /\
     logged (snd out) =
       (logged s ++
        match c, build_body file fileName partNumber entropy with
        | Some errClose, inl body =>
            match fst (request (Send_args ContentTypeFormData ctx id body) (net s)) with
            | inl _ =>
                [("FileUploadClient.Send: failed to close response body: " ++ Error errClose)%string]
            | inr _ => []
            end
        | _, _ => []
        end)%list).
Proof.
  split.
  - intros requestBody clean out. subst clean out. rewrite !Create_run.
    unfold with_close.
    destruct (request _ (net s)) as [[res|err] n]; cbn [fst snd calls net logged].
    + unfold Create_result, handleFileUploadResponse, close_lines.
      cbn [StatusCode Body Body_Close].
      destruct c; rewrite ?app_nil_r; repeat split; reflexivity.
    + destruct c; rewrite ?app_nil_r; repeat split; reflexivity.
  - intros id file fileName partNumber entropy clean out. subst clean out.
    rewrite !Send_run.
    destruct (build_body file fileName partNumber entropy) as [body|err].
    + cbv zeta. unfold with_close.
      destruct (request _ (net s)) as [[res|err] n]; cbn [fst snd calls net logged].
      * unfold Send_result, close_lines. cbn [StatusCode Body Body_Close].
        destruct c; rewrite ?app_nil_r; repeat split; reflexivity.
      * destruct c; rewrite ?app_nil_r; repeat split; reflexivity.
    + cbn [fst snd]. destruct c; rewrite ?app_nil_r; repeat split; reflexivity.
Qed.

(** X2.  A failure to close the file is only logged: whatever closing the
    file gives, [SendFileByPath] returns the same result and makes the same
    call; when the file was opened and closing it fails, the last line
    logged names the path and the failure. *)
Theorem file_close_failure_is_only_logged c ctx id filePath partNumber entropy
    (s : World Ctx Net) :
  let clean := SendFileByPath request ContentTypeFormData (with_file_close None fs) ctx id
                              filePath partNumber entropy s in
  let out := SendFileByPath request ContentTypeFormData (with_file_close c fs) ctx id
                            filePath partNumber entropy s in
  fst out = fst clean /\ calls (snd out) = calls (snd clean) /\
  net (snd out) = net (snd clean) /\
  logged (snd out) =
    (logged (snd clean) ++
     match c, fs filePath with
     | Some errno, inl _ =>
         [("SendFileByPath: failed to close file " ++ filePath ++ ": " ++
           Error (os.PathError "close" filePath errno))%string]
     | _, _ => []
     end)%list.
Proof.
  intros clean out. subst clean out. rewrite !SendFileByPath_run.
  unfold with_file_close.
  destruct (fs filePath) as [node|errno]; cbn [os.contents os.stat_errno].
  - cbv zeta. unfold close_file_lines, os.Close. cbn [os.file_node os.close_errno os.name].
    destruct (os.stat_errno node) as [e|]; cbn [fst snd calls net logged];
      destruct c; rewrite ?app_nil_r; repeat split; reflexivity.
  - cbn [fst snd]. destruct c; rewrite ?app_nil_r; repeat split; reflexivity.
Qed.

(** X3.  Every operation makes at most one call of the transport, [Create]
    exactly one, and only adds to the record of calls and to the log. *)
Theorem one_exchange_per_operation ctx (s : World Ctx Net) :
  (forall requestBody,
     let out := Create request parseStrictRFC3339 ctx requestBody s in
     (exists a, calls (snd out) = (calls s ++ [a])%list) /\
     (exists lines, logged (snd out) = (logged s ++ lines)%list /\ (List.length lines <= 1)%nat)) /\
  (forall id file fileName partNumber entropy,
     let out := Send request ContentTypeFormData ctx id file fileName partNumber entropy s in
     (exists made, calls (snd out) = (calls s ++ made)%list /\ (List.length made <= 1)%nat) /\
     (exists lines, logged (snd out) = (logged s ++ lines)%list /\ (List.length lines <= 1)%nat)) /\
  (forall id filePath partNumber entropy,
     let out := SendFileByPath request ContentTypeFormData fs ctx id filePath partNumber
                               entropy s in
     (exists made, calls (snd out) = (calls s ++ made)%list /\ (List.length made <= 1)%nat) /\
     (exists lines, logged (snd out) = (logged s ++ lines)%list /\ (List.length lines <= 2)%nat)).
Proof.
  assert (Hclose : forall who res, (List.length (close_lines who res) <= 1)%nat)
    by (intros who res; unfold close_lines; destruct (Body_Close res); simpl; lia).
  assert (Hfile : forall path file, (List.length (close_file_lines path file) <= 1)%nat)
    by (intros path file; unfold close_file_lines; destruct (os.Close file); simpl; lia).
  assert (HSend : forall id file fileName partNumber entropy,
     let out := Send request ContentTypeFormData ctx id file fileName partNumber entropy s in
     (exists made, calls (snd out) = (calls s ++ made)%list /\ (List.length made <= 1)%nat) /\
     (exists lines, logged (snd out) = (logged s ++ lines)%list /\ (List.length lines <= 1)%nat)).
  { intros id file fileName partNumber entropy out. subst out. rewrite Send_run.
    destruct (build_body file fileName partNumber entropy) as [body|err].
    - cbv zeta. destruct (request _ (net s)) as [[res|err] n]; cbn [snd calls logged].
      + split; [eexists; split; [reflexivity | simpl; lia]|].
        eexists; split; [reflexivity | apply Hclose].
      + split; [eexists; split; [reflexivity | simpl; lia]|].
        exists []. rewrite app_nil_r. split; [reflexivity | simpl; lia].
    - cbn [snd]. split; exists []; rewrite app_nil_r; (split; [reflexivity | simpl; lia]). }
  split; [|split].
  - intros requestBody out. subst out. rewrite Create_run.
    destruct (request _ (net s)) as [[res|err] n]; cbn [snd calls logged].
    + split; [eexists; reflexivity|]. eexists; split; [reflexivity | apply Hclose].
    + split; [eexists; reflexivity|].
      exists []. rewrite app_nil_r. split; [reflexivity | simpl; lia].
  - exact HSend.
  - intros id filePath partNumber entropy out. subst out. rewrite SendFileByPath_run.
    destruct (fs filePath) as [node|errno].
    + cbv zeta. destruct (os.stat_errno node) as [errno|]; cbn [snd calls logged].
      * split; [exists []; rewrite app_nil_r; split; [reflexivity | simpl; lia]|].
        eexists; split; [reflexivity|].
        pose proof (Hfile filePath (os.mkFile filePath node)). lia.
      * destruct (HSend id (os.contents node) (os.basename filePath) partNumber entropy)
          as [Hc (lines & Hl & Hn)].
        split; [exact Hc|]. rewrite Hl, <- app_assoc.
        eexists; split; [reflexivity|]. rewrite length_app.
        pose proof (Hfile filePath (os.mkFile filePath node)). lia.
    + cbn [snd]. split; exists []; rewrite app_nil_r; (split; [reflexivity | simpl; lia]).
Qed.

(** X4.  Every error [Send] returns names the operation: its message starts
    with the name of [Send], whatever failed, reading the content, the
    transport or the status. *)
Theorem Send_errors_name_the_operation ctx id file fileName partNumber entropy
    (s : World Ctx Net) err :
  fst (Send request ContentTypeFormData ctx id file fileName partNumber entropy s) = Some err ->
  starts_with "FileUploadClient.Send: " (Error err).
Proof.
  rewrite Send_run, build_body_eq.
  destruct (reader_error file) as [e|].
  - cbn [fst]. intros [= <-]. eexists. reflexivity.
  - cbv zeta. destruct (request _ (net s)) as [[res|e] n]; cbn [fst].
    + unfold Send_result. destruct (StatusCode res =? 200); [discriminate|].
      intros [= <-]. eexists. reflexivity.
    + intros [= <-]. eexists. reflexivity.
Qed.

(** X5.  An error of [SendFileByPath] names where it arose: its message
    starts with the name of [SendFileByPath] and the path when opening or
    describing the file failed, and with the name of [Send] otherwise. *)
Theorem SendFileByPath_errors_name_their_origin ctx id filePath partNumber entropy
    (s : World Ctx Net) err :
  fst (SendFileByPath request ContentTypeFormData fs ctx id filePath partNumber entropy s)
  = Some err ->
  match os.Open fs filePath with
  | inr _ =>
      starts_with ("SendFileByPath: failed to open file " ++ filePath ++ ": ") (Error err)
  | inl file =>
      match os.Stat_Name file with
      | inr _ =>
          starts_with ("SendFileByPath: failed to get file info for " ++ filePath ++ ": ")
                      (Error err)
      | inl _ => starts_with "FileUploadClient.Send: " (Error err)
      end
  end.
Proof.
  rewrite SendFileByPath_run. unfold os.Open, os.Stat_Name.
  destruct (fs filePath) as [node|errno]; cbn [os.file_node os.name].
  - cbv zeta. destruct (os.stat_errno node) as [errno|]; cbn [fst].
    + intros [= <-]. eexists. reflexivity.
    + rewrite Send_run, build_body_eq.
      destruct (reader_error (os.contents node)) as [e|].
      * cbn [fst]. intros [= <-]. eexists. reflexivity.
      * cbv zeta. destruct (request _ (net s)) as [[res|e] n]; cbn [fst].
        -- unfold Send_result. destruct (StatusCode res =? 200); [discriminate|].
           intros [= <-]. eexists. reflexivity.
        -- intros [= <-]. eexists. reflexivity.
  - cbn [fst]. intros [= <-]. eexists. reflexivity.
Qed.

(** X6.  How the reader cuts the content into reads does not matter: two
    readers that end alike and, when they end with [io.EOF], hand over the
    same bytes make [Send] do the same. *)
Theorem Send_ignores_chunking ctx id file1 file2 fileName partNumber entropy
    (s : World Ctx Net) :
  reader_error file1 = reader_error file2 ->
  (reader_error file1 = None -> reader_bytes file1 = reader_bytes file2) ->
  Send request ContentTypeFormData ctx id file1 fileName partNumber entropy s =
  Send request ContentTypeFormData ctx id file2 fileName partNumber entropy s.
Proof.
  intros He Hb. rewrite !Send_run, !build_body_eq, <- He.
  destruct (reader_error file1); [reflexivity|]. now rewrite (Hb eq_refl).
Qed.


(** X8.  The error for an unexpected status carries the status: when the
    transport answers with a status code other than 200, [Create] and [Send]
    return an error that wraps nothing and whose message is the fixed text
    of the operation followed by the decimal numeral of the code, so that
    different codes give different errors. *)
Theorem unexpected_status_is_reported ctx (s : World Ctx Net) res n :
  StatusCode res <> 200 ->
  (forall requestBody,
     request (Create_args ctx requestBody) (net s) = (inl res, n) ->
     exists numeral,
       fst (Create request parseStrictRFC3339 ctx requestBody s) =
         inr (New ("FileUploadClient.Create: unexpected status code: " ++ numeral)) /\
       Atoi numeral = Some (StatusCode res)) /\
  (forall id file fileName partNumber entropy body,
     build_body file fileName partNumber entropy = inl body ->
     request (Send_args ContentTypeFormData ctx id body) (net s) = (inl res, n) ->
     exists numeral,
       fst (Send request ContentTypeFormData ctx id file fileName partNumber entropy s) =
         Some (New ("FileUploadClient.Send: unexpected status code: " ++ numeral)) /\
       Atoi numeral = Some (StatusCode res)).
Proof.
  intros Hcode. apply Z.eqb_neq in Hcode. split.
  - intros requestBody Hreq. exists (Itoa (StatusCode res)).
    rewrite Create_run, Hreq. cbn [fst]. unfold Create_result. rewrite Hcode.
    split; [reflexivity | apply Atoi_Itoa].
  - intros id file fileName partNumber entropy body Hb Hreq. exists (Itoa (StatusCode res)).
    rewrite Send_run, Hb. cbv zeta. rewrite Hreq. cbn [fst]. unfold Send_result.
    rewrite Hcode. split; [reflexivity | apply Atoi_Itoa].
Qed.

(** X9.  [Create] does not read the body of a response whose status code
    is not 200: with any other body in its place it does the same. *)
Theorem Create_ignores_body_of_failure ctx requestBody (s : World Ctx Net) res n f :
  request (Create_args ctx requestBody) (net s) = (inl res, n) ->
  StatusCode res <> 200 ->
  Create (with_body f request) parseStrictRFC3339 ctx requestBody s =
  Create request parseStrictRFC3339 ctx requestBody s.
Proof.
  intros Hreq Hcode. apply Z.eqb_neq in Hcode.
  rewrite !Create_run. unfold with_body. rewrite Hreq.
  unfold Create_result, close_lines. cbn [StatusCode Body_Close]. now rewrite Hcode.
Qed.

(** X10.  [Create] asks for no field: a 200 response whose body is null, or
    an object none of whose members names a field of [FileUpload], makes it
    return the zero record with no error, its ID and UploadURL empty. *)
Theorem Create_requires_no_field ctx requestBody (s : World Ctx Net) res n :
  request (Create_args ctx requestBody) (net s) = (inl res, n) ->
  StatusCode res = 200 ->
  Body res = JSONBody json.Null \/
  (exists members,
     Body res = JSONBody (json.Obj members) /\
     Forall (fun kv => json.find_field (fst kv) = None) members) ->
  fst (Create request parseStrictRFC3339 ctx requestBody s) = inl zero_FileUpload /\
  ID zero_FileUpload = EmptyString /\ UploadURL zero_FileUpload = EmptyString.
Proof.
  intros Hreq Hcode Hbody. split; [|split; reflexivity].
  rewrite Create_run, Hreq. cbn [fst].
  unfold Create_result, handleFileUploadResponse, Decode. rewrite Hcode. cbn [Z.eqb Pos.eqb].
  destruct Hbody as [->|(members & -> & Hall)]; [reflexivity|].
  unfold json.unmarshal. now rewrite (object_unknown_members _ _ _ _ Hall).
Qed.



End FurtherProperties.

Section DecodingProperties.

Variables Ctx Net : Type.
Variable request : RequestArgs Ctx -> Net -> Result Response * Net.
Variable parseStrictRFC3339 : string -> Result time_Time.

(** X13.  One member of the wrong kind fails the whole call: when the
    body of a 200 response is an object in which some member names a field
    of [FileUpload] and holds a boolean, an array or an object, [Create]
    returns the wrapped decoding error and no record, whatever the other
    members are. *)
Theorem Create_rejects_mistyped_member ctx requestBody (s : World Ctx Net) res n
    members key v f :
  request (Create_args ctx requestBody) (net s) = (inl res, n) ->
  StatusCode res = 200 ->
  Body res = JSONBody (json.Obj members) ->
  In (key, v) members ->
  json.find_field key = Some f ->
  In (json.kind_name v) ["bool"; "array"; "object"] ->
  exists err,
    fst (Create request parseStrictRFC3339 ctx requestBody s) =
    inr (Errorf_w "handleFileUploadResponse: failed to decode json: " err).
Proof.
  intros Hreq Hcode Hbody Hin Hf Hkind.
  destruct (unmarshal_refuses parseStrictRFC3339 members key v f zero_FileUpload Hin Hf)
    as [err Herr].
  { intros r. destruct v as [|b|lit|st|els|ms];
      try (cbn in Hkind; repeat destruct Hkind as [Hkind|Hkind]; discriminate || contradiction);
      destruct f; exact I. }
  exists err. rewrite Create_run, Hreq. cbn [fst].
  unfold Create_result, handleFileUploadResponse, Decode. rewrite Hcode, Hbody.
  cbn [Z.eqb Pos.eqb]. now rewrite Herr.
Qed.

(** X14.  The string fields of the record [Create] returns are the ones
    the body reports: each of Object, ID, Status, Filename, ContentType,
    UploadURL, CompleteURL and FileImportResult is the string of the last
    member of the body that names the field and holds a string, and is
    empty when no member does; members that name other fields, and null
    values, have no part in it. *)
Theorem Create_returns_reported_strings ctx requestBody (s : World Ctx Net) res n
    members record f get :
  request (Create_args ctx requestBody) (net s) = (inl res, n) ->
  Body res = JSONBody (json.Obj members) ->
  fst (Create request parseStrictRFC3339 ctx requestBody s) = inl record ->
  string_field f = Some get ->
  get record = reported f members EmptyString.
Proof.
  intros Hreq Hbody Hok Hget.
  rewrite Create_run, Hreq in Hok. cbn [fst] in Hok.
  exact (Create_result_string_field parseStrictRFC3339 res members record f get Hbody Hok Hget).
Qed.

(** X15.  A content length the field cannot hold fails the call: when a
    member of the body of a 200 response names content_length and holds a
    number whose literal is not a decimal integer of 64 bits, [Create]
    returns the wrapped decoding error and no record. *)
Theorem Create_rejects_content_length_out_of_range ctx requestBody (s : World Ctx Net) res n
    members key literal :
  request (Create_args ctx requestBody) (net s) = (inl res, n) ->
  StatusCode res = 200 ->
  Body res = JSONBody (json.Obj members) ->
  In (key, json.Number literal) members ->
  json.find_field key = Some json.f_content_length ->
  json.ParseInt literal = None ->
  exists err,
    fst (Create request parseStrictRFC3339 ctx requestBody s) =
    inr (Errorf_w "handleFileUploadResponse: failed to decode json: " err).
Proof.
  intros Hreq Hcode Hbody Hin Hf Hint.
  destruct (unmarshal_refuses parseStrictRFC3339 members key (json.Number literal)
              json.f_content_length zero_FileUpload Hin Hf) as [err Herr].
  { intros r. unfold json.store. now rewrite Hint. }
  exists err. rewrite Create_run, Hreq. cbn [fst].
  unfold Create_result, handleFileUploadResponse, Decode. rewrite Hcode, Hbody.
  cbn [Z.eqb Pos.eqb]. now rewrite Herr.
Qed.

(** X16.  Keys are matched without regard to the case of their letters,
    and the last member wins: when the last member of the body holds a
    string under a key that is the name of a string field under case
    folding, the record [Create] returns has that string in the field,
    whatever the members before it are. *)
Theorem Create_matches_keys_by_case_folding ctx requestBody (s : World Ctx Net) res n
    before key x record f get :
  request (Create_args ctx requestBody) (net s) = (inl res, n) ->
  Body res = JSONBody (json.Obj (before ++ [(key, json.Str x)])) ->
  fst (Create request parseStrictRFC3339 ctx requestBody s) = inl record ->
  string_field f = Some get ->
  json.foldName key = json.foldName (json.field_name f) ->
  get record = x.
Proof.
  intros Hreq Hbody Hok Hget Hfold.
  rewrite Create_run, Hreq in Hok. cbn [fst] in Hok.
  rewrite (Create_result_string_field parseStrictRFC3339 res _ record f get Hbody Hok Hget).
  apply reported_last, find_field_folded, Hfold.
Qed.

(** X17.  A time that does not parse fails the call: when a member of the
    body of a 200 response names created_time, last_edited_time or
    expiry_time and holds a string the time parser refuses, [Create]
    returns the wrapped decoding error and no record. *)
Theorem Create_rejects_unparsable_time ctx requestBody (s : World Ctx Net) res n
    members key text f e :
  request (Create_args ctx requestBody) (net s) = (inl res, n) ->
  StatusCode res = 200 ->
  Body res = JSONBody (json.Obj members) ->
  In (key, json.Str text) members ->
  json.find_field key = Some f ->
  In f [json.f_created_time; json.f_last_edited_time; json.f_expiry_time] ->
  parseStrictRFC3339 text = inr e ->
  exists err,
    fst (Create request parseStrictRFC3339 ctx requestBody s) =
    inr (Errorf_w "handleFileUploadResponse: failed to decode json: " err).
Proof.
  intros Hreq Hcode Hbody Hin Hf Htime Hparse.
  destruct (unmarshal_refuses parseStrictRFC3339 members key (json.Str text) f
              zero_FileUpload Hin Hf) as [err Herr].
  { intros r. cbn in Htime.
    destruct Htime as [<-|[<-|[<-|[]]]];
      unfold json.store, json.store_time, json.Time_UnmarshalJSON; now rewrite Hparse. }
  exists err. rewrite Create_run, Hreq. cbn [fst].
  unfold Create_result, handleFileUploadResponse, Decode. rewrite Hcode, Hbody.
  cbn [Z.eqb Pos.eqb]. now rewrite Herr.
Qed.

End DecodingProperties.

Section Composition.

Variables Ctx Net : Type.
Variable request : RequestArgs Ctx -> Net -> Result Response * Net.
Variable ContentTypeFormData : string.
Variable parseStrictRFC3339 : string -> Result time_Time.


End Composition.

(** ** Closed instances of the further properties *)

(** X4, with a service that answers 500. *)
Lemma Send_errors_name_the_operation_witness :
  starts_with "FileUploadClient.Send: "
    (Error (Errorf_d "FileUploadClient.Send: unexpected status code: " 500)).
Proof.
  exact (Send_errors_name_the_operation unit unit (answer (inl (status_only 500)))
           "multipart/form-data" tt "id" (ReadLast "hello" None) "a.txt" None entropy_A world0
           (Errorf_d "FileUploadClient.Send: unexpected status code: " 500) eq_refl).
Defined.

(** X5, with a path that names no file. *)
Lemma SendFileByPath_errors_name_their_origin_witness :
  starts_with "SendFileByPath: failed to open file /tmp/b.txt: "
    (Error (Errorf_w "SendFileByPath: failed to open file /tmp/b.txt: "
              (os.PathError "open" "/tmp/b.txt" (New "no such file or directory")))).
Proof.
  exact (SendFileByPath_errors_name_their_origin unit unit (answer (inl (reports "pending")))
           "multipart/form-data" sample_fs tt "id" "/tmp/b.txt" (Some 1) entropy_A world0
           (Errorf_w "SendFileByPath: failed to open file /tmp/b.txt: "
              (os.PathError "open" "/tmp/b.txt" (New "no such file or directory")))
           eq_refl).
Defined.

(** X6, with the five bytes of hello read in two reads and in one. *)
Lemma Send_ignores_chunking_witness :
  let tr := answer (inl (reports "pending")) in
  Send tr "multipart/form-data" tt "id" (ReadMore "he" (ReadLast "llo" None)) "a.txt" (Some 1)
       entropy_A world0 =
  Send tr "multipart/form-data" tt "id" (ReadLast "hello" None) "a.txt" (Some 1)
       entropy_A world0.
Proof.
  exact (Send_ignores_chunking unit unit (answer (inl (reports "pending")))
           "multipart/form-data" tt "id" (ReadMore "he" (ReadLast "llo" None))
           (ReadLast "hello" None) "a.txt" (Some 1) entropy_A world0 eq_refl
           (fun _ => eq_refl)).
Defined.


(** X8, with a service that answers 500. *)
Lemma unexpected_status_is_reported_witness :
  exists numeral,
    fst (Create (answer (inl (status_only 500))) no_time tt None world0) =
      inr (New ("FileUploadClient.Create: unexpected status code: " ++ numeral)) /\
    Atoi numeral = Some 500.
Proof.
  refine (proj1 (unexpected_status_is_reported unit unit (answer (inl (status_only 500)))
                   "multipart/form-data" no_time tt world0 (status_only 500) tt _)
            None eq_refl).
  discriminate.
Defined.

(** X9, with a service that answers 500 and a body put in place of its
    own. *)
Lemma Create_ignores_body_of_failure_witness :
  Create (with_body (fun _ => JSONBody (json.Str "busy")) (answer (inl (status_only 500))))
         no_time tt None world0 =
  Create (answer (inl (status_only 500))) no_time tt None world0.
Proof.
  refine (Create_ignores_body_of_failure unit unit (answer (inl (status_only 500))) no_time
            tt None world0 (status_only 500) tt (fun _ => JSONBody (json.Str "busy"))
            eq_refl _).
  discriminate.
Defined.

(** X10, with a body whose one member names no field. *)
Lemma Create_requires_no_field_witness :
  fst (Create (answer (inl (mkResponse 200
                              (JSONBody (json.Obj [("request_id", json.Str "r")])) None)))
              no_time tt None world0) = inl zero_FileUpload /\
  ID zero_FileUpload = EmptyString /\ UploadURL zero_FileUpload = EmptyString.
Proof.
  refine (Create_requires_no_field unit unit
            (answer (inl (mkResponse 200
                            (JSONBody (json.Obj [("request_id", json.Str "r")])) None)))
            no_time tt None world0 _ tt eq_refl eq_refl
            (or_intror (ex_intro _ [("request_id", json.Str "r")] (conj eq_refl _)))).
  repeat constructor.
Defined.



(** X13, with a body whose id is a boolean. *)
Lemma Create_rejects_mistyped_member_witness :
  exists err,
    fst (Create (answer (inl (mkResponse 200
                                (JSONBody (json.Obj [("status", json.Str "pending");
                                                     ("id", json.Bool true)])) None)))
                no_time tt None world0) =
    inr (Errorf_w "handleFileUploadResponse: failed to decode json: " err).
Proof.
  exact (Create_rejects_mistyped_member unit unit
           (answer (inl (mkResponse 200
                           (JSONBody (json.Obj [("status", json.Str "pending");
                                                ("id", json.Bool true)])) None)))
           no_time tt None world0 _ tt _ "id" (json.Bool true) json.f_id
           eq_refl eq_refl eq_refl (or_intror (or_introl eq_refl)) eq_refl
           (or_introl eq_refl)).
Defined.

(** X14, with a body that gives the id twice and the upload URL once. *)
Lemma Create_returns_reported_strings_witness :
  let members := [("id", json.Str "a"); ("upload_url", json.Str "u"); ("id", json.Str "b")] in
  exists record,
    fst (Create (answer (inl (mkResponse 200 (JSONBody (json.Obj members)) None)))
                no_time tt None world0) = inl record /\
    ID record = reported json.f_id members EmptyString /\
    reported json.f_id members EmptyString = "b".
Proof.
  cbv zeta. eexists. split; [reflexivity|]. split; [|reflexivity].
  exact (Create_returns_reported_strings unit unit
           (answer (inl (mkResponse 200
                           (JSONBody (json.Obj [("id", json.Str "a");
                                                ("upload_url", json.Str "u");
                                                ("id", json.Str "b")])) None)))
           no_time tt None world0 _ tt _ _ json.f_id ID eq_refl eq_refl eq_refl eq_refl).
Defined.

(** X15, with a content length of 2^63. *)
Lemma Create_rejects_content_length_out_of_range_witness :
  exists err,
    fst (Create (answer (inl (mkResponse 200
                                (JSONBody (json.Obj [("content_length",
                                                      json.Number "9223372036854775808")]))
                                None)))
                no_time tt None world0) =
    inr (Errorf_w "handleFileUploadResponse: failed to decode json: " err).
Proof.
  exact (Create_rejects_content_length_out_of_range unit unit
           (answer (inl (mkResponse 200
                           (JSONBody (json.Obj [("content_length",
                                                 json.Number "9223372036854775808")]))
                           None)))
           no_time tt None world0 _ tt _ "content_length" "9223372036854775808"
           eq_refl eq_refl eq_refl (or_introl eq_refl) eq_refl eq_refl).
Defined.

(** X16, with a body that gives the id under two spellings of the key. *)
Lemma Create_matches_keys_by_case_folding_witness :
  exists record,
    fst (Create (answer (inl (mkResponse 200
                                (JSONBody (json.Obj [("id", json.Str "a");
                                                     ("ID", json.Str "b")])) None)))
                no_time tt None world0) = inl record /\
    ID record = "b".
Proof.
  eexists. split; [reflexivity|].
  exact (Create_matches_keys_by_case_folding unit unit
           (answer (inl (mkResponse 200
                           (JSONBody (json.Obj [("id", json.Str "a");
                                                ("ID", json.Str "b")])) None)))
           no_time tt None world0 _ tt [("id", json.Str "a")] "ID" "b" _ json.f_id ID
           eq_refl eq_refl eq_refl eq_refl eq_refl).
Defined.

(** X17, with a creation time that is no time. *)
Lemma Create_rejects_unparsable_time_witness :
  exists err,
    fst (Create (answer (inl (mkResponse 200
                                (JSONBody (json.Obj [("created_time", json.Str "today")]))
                                None)))
                no_time tt None world0) =
    inr (Errorf_w "handleFileUploadResponse: failed to decode json: " err).
Proof.
  exact (Create_rejects_unparsable_time unit unit
           (answer (inl (mkResponse 200
                           (JSONBody (json.Obj [("created_time", json.Str "today")]))
                           None)))
           no_time tt None world0 _ tt _ "created_time" "today" json.f_created_time _
           eq_refl eq_refl eq_refl (or_introl eq_refl) eq_refl (or_introl eq_refl) eq_refl).
Defined.

